(** * PowerTag gateway register codec (schneider_modbus.py)

    A shallow embedding of
    [custom_components/powertag_gateway/schneider_modbus.py]: the Python
    values the module manipulates, the Modbus client it talks to, the
    pymodbus payload decoder and builder it relies on, the enumerations, the
    [AlarmStatus] bit field and the [SchneiderModbus] accessors, followed by
    the properties of the codec. *)

From Stdlib Require Import ZArith List Bool String Ascii Lia.
Import ListNotations.
Local Open Scope list_scope.
Local Open Scope Z_scope.

(** ** Python values, exceptions and results *)

Module Py.

(** A Python [str] is a sequence of Unicode code points. *)
Definition str := list Z.

Definition str_of_string (s : string) : str :=
  map (fun c => Z.of_N (N_of_ascii c)) (list_ascii_of_string s).

(** The exceptions that the module raises or lets through. *)
Inductive exn : Type :=
| AssertionError
| ConnectionError (msg : str)
| TypeError
| ValueError
| StructError          (* struct.error *)
| UnicodeDecodeError
| AttributeError.

Inductive result (A : Type) : Type :=
| Ok (a : A)
| Raise (e : exn).
Arguments Ok {A} a.
Arguments Raise {A} e.

Definition rbind {A B} (r : result A) (k : A -> result B) : result B :=
  match r with
  | Ok a => k a
  | Raise e => Raise e
  end.

(** Dynamically typed operands, as far as the module compares them. *)
Inductive object : Type :=
| Int (n : Z)
| Str (s : str).

Fixpoint str_eqb (s t : str) : bool :=
  match s, t with
  | [], [] => true
  | a :: s', b :: t' => (a =? b) && str_eqb s' t'
  | _, _ => false
  end.

(** [a == b]: values of different types never compare equal. *)
Definition eq (a b : object) : bool :=
  match a, b with
  | Int x, Int y => x =? y
  | Str s, Str t => str_eqb s t
  | _, _ => false
  end.

(** [a & b] where [a] is [int | None]: [None & int] is a [TypeError]. *)
Definition and_ (a : option Z) (b : Z) : result Z :=
  match a with
  | Some x => Ok (Z.land x b)
  | None => Raise TypeError
  end.

(** [a != b] where [a] is [int | None]: [None] differs from every int. *)
Definition ne (a : option Z) (b : Z) : bool :=
  match a with
  | Some x => negb (x =? b)
  | None => true
  end.

(** [range(start, stop, -1)]. *)
Definition range_down (start stop : Z) : list Z :=
  map (fun i => start - Z.of_nat i) (seq 0 (Z.to_nat (start - stop))).

(** *** [bytes.decode()], whose default codec is strict UTF-8 *)

Definition continuation (b : Z) : bool := (0x80 <=? b) && (b <=? 0xBF).
Definition within (lo hi b : Z) : bool := (lo <=? b) && (b <=? hi).

Fixpoint decode (bs : list Z) : result str :=
  match bs with
  | [] => Ok []
  | b0 :: r0 =>
    if b0 <? 0x80 then rbind (decode r0) (fun s => Ok (b0 :: s))
    else if within 0xC2 0xDF b0 then
      match r0 with
      | b1 :: r1 =>
        if continuation b1
        then rbind (decode r1)
               (fun s => Ok (((b0 - 0xC0) * 64 + (b1 - 0x80)) :: s))
        else Raise UnicodeDecodeError
      | _ => Raise UnicodeDecodeError
      end
    else if within 0xE0 0xEF b0 then
      match r0 with
      | b1 :: b2 :: r2 =>
        if within (if b0 =? 0xE0 then 0xA0 else 0x80)
                  (if b0 =? 0xED then 0x9F else 0xBF) b1
           && continuation b2
        then rbind (decode r2)
               (fun s => Ok (((b0 - 0xE0) * 4096 + (b1 - 0x80) * 64
                              + (b2 - 0x80)) :: s))
        else Raise UnicodeDecodeError
      | _ => Raise UnicodeDecodeError
      end
    else if within 0xF0 0xF4 b0 then
      match r0 with
      | b1 :: b2 :: b3 :: r3 =>
        if within (if b0 =? 0xF0 then 0x90 else 0x80)
                  (if b0 =? 0xF4 then 0x8F else 0xBF) b1
           && continuation b2 && continuation b3
        then rbind (decode r3)
               (fun s => Ok (((b0 - 0xF0) * 262144 + (b1 - 0x80) * 4096
                              + (b2 - 0x80) * 64 + (b3 - 0x80)) :: s))
        else Raise UnicodeDecodeError
      | _ => Raise UnicodeDecodeError
      end
    else Raise UnicodeDecodeError
  end.

(** *** [datetime.datetime]

    The constructor is [datetime(year, month, day, hour, minute, second,
    microsecond)]: its seventh positional parameter is the microsecond. *)

Record datetime : Type := mk_datetime {
  year : Z;
  month : Z;
  day : Z;
  hour : Z;
  minute : Z;
  second : Z;
  microsecond : Z
}.

Definition is_leap (y : Z) : bool :=
  (y mod 4 =? 0) && (negb (y mod 100 =? 0) || (y mod 400 =? 0)).

Definition days_in_month (y m : Z) : Z :=
  if m =? 2 then (if is_leap y then 29 else 28)
  else if (m =? 4) || (m =? 6) || (m =? 9) || (m =? 11) then 30
  else 31.

(** The range checks of the constructor; a field out of range is a
    [ValueError]. *)
Definition new_datetime (y m d hh mm ss us : Z) : result datetime :=
  if within 1 9999 y && within 1 12 m && within 1 (days_in_month y m) d
     && within 0 23 hh && within 0 59 mm && within 0 59 ss
     && within 0 999999 us
  then Ok (mk_datetime y m d hh mm ss us)
  else Raise ValueError.

(** The millisecond part of a date-time, [microsecond // 1000]. *)
Definition millisecond (t : datetime) : Z := microsecond t / 1000.

(** *** 32-bit floats

    A value unpacked with format [f] is kept as its IEEE-754 binary32 bit
    pattern; [math.isnan] holds of the patterns whose exponent is all ones
    and whose fraction is not zero. *)
Definition float32 := Z.

Definition isnan (bits : float32) : bool :=
  (Z.land (Z.shiftr bits 23) 0xFF =? 0xFF)
  && negb (Z.land bits 0x7FFFFF =? 0).

End Py.

Import Py.

Declare Scope py_scope.
Delimit Scope py_scope with py.
Notation "x <~ c1 ;; c2" := (rbind c1 (fun x => c2))
  (at level 61, c1 at next level, right associativity) : py_scope.
Notation "' pat <~ c1 ;; c2" :=
  (rbind c1 (fun x => match x with pat => c2 end))
  (at level 61, pat pattern, c1 at next level, right associativity) : py_scope.
Local Open Scope py_scope.

(** ** pymodbus payload decoder and builder

    Both are used with [byteorder=Endian.Big, wordorder=Endian.Big]. *)

Definition is_u16 (w : Z) : bool := (0 <=? w) && (w <? 65536).

(** [struct.pack(">H", w)]: most significant byte first. *)
Definition pack_H (w : Z) : list Z := [w / 256; w mod 256].

(** [struct.unpack] of a big-endian unsigned integer of [size] bytes; a
    buffer of another length is a [struct.error]. *)
Definition unpack_uint (size : nat) (handle : list Z) : result Z :=
  if Nat.eqb (List.length handle) size
  then Ok (fold_left (fun acc b => acc * 256 + b) handle 0)
  else Raise StructError.

Module BinaryPayloadDecoder.

Record t : Type := mk { payload : list Z; pointer : nat }.

(** Modelled from the spec: pymodbus' [BinaryPayloadDecoder.fromRegisters],
    which is not part of this module; every register word is packed into
    two bytes, most significant byte first, the words kept in order. *)
Definition fromRegisters (registers : list Z) : result t :=
  if forallb is_u16 registers
  then Ok (mk (flat_map pack_H registers) 0)
  else Raise StructError.

(** Advance the pointer by [size] and return the bytes stepped over (the
    slice is shorter when the payload runs out). *)
Definition advance (d : t) (size : nat) : list Z * t :=
  (firstn size (skipn (pointer d) (payload d)),
   mk (payload d) (pointer d + size)).

Definition decode_uint (size : nat) (d : t) : result (Z * t) :=
  let (handle, d') := advance d size in
  v <~ unpack_uint size handle ;; Ok (v, d').

(** Modelled from the spec: pymodbus' decoders of unsigned integers of 1,
    2 and 4 words, most significant word first. *)
Definition decode_16bit_uint : t -> result (Z * t) := decode_uint 2.
Definition decode_32bit_uint : t -> result (Z * t) := decode_uint 4.
Definition decode_64bit_uint : t -> result (Z * t) := decode_uint 8.

(** Modelled from the spec: pymodbus' [decode_32bit_float]; the result is
    the binary32 bit pattern of the float. *)
Definition decode_32bit_float : t -> result (float32 * t) := decode_uint 4.

(** Modelled from the spec: pymodbus' [decode_string], which returns the
    next [size] bytes of the payload as a [bytes] object. *)
Definition decode_string (size : Z) (d : t) : list Z * t :=
  advance d (Z.to_nat size).

End BinaryPayloadDecoder.

Module BinaryPayloadBuilder.

(** The builder's [_payload]: the packed byte strings added so far. *)
Definition t := list (list Z).

Definition new : t := [].

(** Modelled from the spec: pymodbus' [add_16bit_uint], [pack(">H", value)];
    a value that does not fit 16 bits is a [struct.error]. *)
Definition add_16bit_uint (b : t) (value : Z) : result t :=
  if is_u16 value then Ok (b ++ [pack_H value]) else Raise StructError.

Fixpoint words (buffer : list Z) : list Z :=
  match buffer with
  | b0 :: b1 :: rest => (b0 * 256 + b1) :: words rest
  | [b0] => [b0 * 256]
  | [] => []
  end.

(** Modelled from the spec: pymodbus' [to_registers]; the joined payload,
    padded with a zero byte to an even length, read as big-endian words. *)
Definition to_registers (b : t) : list Z := words (List.concat b).

End BinaryPayloadBuilder.

(** ** Enumerations *)

(** Equality of enumeration values, which are [int | None]. *)
Definition value_eqb (a b : option Z) : bool :=
  match a, b with
  | Some x, Some y => x =? y
  | None, None => true
  | _, _ => false
  end.

(** [Enum(value)]: the member whose value equals [value], a [ValueError]
    when there is none. *)
Definition enum_call {E : Type} (members : list E) (value : E -> option Z)
    (v : option Z) : result E :=
  match find (fun m => value_eqb (value m) v) members with
  | Some m => Ok m
  | None => Raise ValueError
  end.

Module Phase.
Inductive t : Type := A | B | C.
Definition value (p : t) : Z :=
  match p with A => 0 | B => 2 | C => 4 end.
End Phase.

Module LineVoltage.
Inductive t : Type := A_B | B_C | C_A | A_N | B_N | C_N.
Definition value (l : t) : Z :=
  match l with
  | A_B => 0 | B_C => 2 | C_A => 4 | A_N => 8 | B_N => 10 | C_N => 12
  end.
End LineVoltage.

Module PanelserverStatus.
Inductive t : Type := Nominal | Degraded | Outoforder.
Definition value (s : t) : option Z :=
  match s with
  | Nominal => Some 0 | Degraded => Some 1 | Outoforder => Some 2
  end.
Definition members : list t := [Nominal; Degraded; Outoforder].
Definition call : option Z -> result t := enum_call members value.
End PanelserverStatus.

Module DeviceUsage.
Inductive t : Type :=
| main_incomer | sub_head_of_group | heating | cooling | hvac | ventilation
| lighting | office_equipment | cooking | food_refrigeration | elevators
| computers | renewable_energy_production | genset | compressed_air | vapor
| machine | process | water | other_sockets | other | INVALID.
Definition value (u : t) : option Z :=
  match u with
  | main_incomer => Some 1 | sub_head_of_group => Some 2 | heating => Some 3
  | cooling => Some 4 | hvac => Some 5 | ventilation => Some 6
  | lighting => Some 7 | office_equipment => Some 8 | cooking => Some 9
  | food_refrigeration => Some 10 | elevators => Some 11
  | computers => Some 12 | renewable_energy_production => Some 13
  | genset => Some 14 | compressed_air => Some 15 | vapor => Some 16
  | machine => Some 17 | process => Some 18 | water => Some 19
  | other_sockets => Some 20 | other => Some 21 | INVALID => None
  end.
Definition members : list t :=
  [main_incomer; sub_head_of_group; heating; cooling; hvac; ventilation;
   lighting; office_equipment; cooking; food_refrigeration; elevators;
   computers; renewable_energy_production; genset; compressed_air; vapor;
   machine; process; water; other_sockets; other; INVALID].
Definition call : option Z -> result t := enum_call members value.
End DeviceUsage.

Module PhaseSequence.
Inductive t : Type := A | B | C | ABC | ACB | BCA | BAC | CAB | CBA | INVALID.
Definition value (s : t) : option Z :=
  match s with
  | A => Some 1 | B => Some 2 | C => Some 3 | ABC => Some 4 | ACB => Some 5
  | BCA => Some 6 | BAC => Some 7 | CAB => Some 8 | CBA => Some 9
  | INVALID => None
  end.
Definition members : list t :=
  [A; B; C; ABC; ACB; BCA; BAC; CAB; CBA; INVALID].
Definition call : option Z -> result t := enum_call members value.
End PhaseSequence.

Module Position.
Inductive t : Type := not_configured | top | bottom | not_applicable | INVALID.
Definition value (p : t) : option Z :=
  match p with
  | not_configured => Some 0 | top => Some 1 | bottom => Some 2
  | not_applicable => Some 3 | INVALID => None
  end.
Definition members : list t :=
  [not_configured; top; bottom; not_applicable; INVALID].
Definition call : option Z -> result t := enum_call members value.
End Position.

Module ProductType.
Inductive t : Type :=
| A9MEM1520 | A9MEM1521 | A9MEM1522 | A9MEM1540 | A9MEM1541 | A9MEM1542
| A9MEM1560 | A9MEM1561 | A9MEM1562 | A9MEM1563 | A9MEM1570 | A9MEM1571
| A9MEM1572 | LV434020 | LV434021 | LV434022 | LV434023 | A9MEM1543
| A9XMC2D3 | A9XMC1D3 | A9MEM1564 | A9MEM1573 | A9MEM1574 | A9MEM1590
| A9MEM1591 | A9MEM1592 | A9MEM1593 | A9MEM1580 | A9XMWRD | SMT10020.
Definition value (p : t) : Z * string :=
  match p with
  | A9MEM1520 => (41, "PowerTag M63 1P")
  | A9MEM1521 => (42, "PowerTag M63 1P+N Top")
  | A9MEM1522 => (43, "PowerTag M63 1P+N Bottom")
  | A9MEM1540 => (44, "PowerTag M63 3P")
  | A9MEM1541 => (45, "PowerTag M63 3P+N Top")
  | A9MEM1542 => (46, "PowerTag M63 3P+N Bottom")
  | A9MEM1560 => (81, "PowerTag F63 1P+N")
  | A9MEM1561 => (82, "PowerTag P63 1P+N Top")
  | A9MEM1562 => (83, "PowerTag P63 1P+N Bottom")
  | A9MEM1563 => (84, "PowerTag P63 1P+N Bottom")
  | A9MEM1570 => (85, "PowerTag F63 3P+N")
  | A9MEM1571 => (86, "PowerTag P63 3P+N Top")
  | A9MEM1572 => (87, "PowerTag P63 3P+N Bottom")
  | LV434020 => (92, "PowerTag M250 3P")
  | LV434021 => (93, "PowerTag M250 4P")
  | LV434022 => (94, "PowerTag M630 3P")
  | LV434023 => (95, "PowerTag M630 4P")
  | A9MEM1543 => (96, "PowerTag M63 3P 230 V")
  | A9XMC2D3 => (97, "PowerTag C 2DI 230 V")
  | A9XMC1D3 => (98, "PowerTag C IO 230 V")
  | A9MEM1564 => (101, "PowerTag F63 1P+N 110 V")
  | A9MEM1573 => (102, "PowerTag F63 3P")
  | A9MEM1574 => (103, "PowerTag F63 3P+N 110/230 V")
  | A9MEM1590 => (104, "PowerTag R200")
  | A9MEM1591 => (105, "PowerTag R600")
  | A9MEM1592 => (106, "PowerTag R1000")
  | A9MEM1593 => (107, "PowerTag R2000")
  | A9MEM1580 => (121, "PowerTag F160")
  | A9XMWRD => (170, "PowerTag Link display")
  | SMT10020 => (171, "HeatTag sensor")
  end%string.
(** The members in definition order, as iterating the class yields them. *)
Definition members : list t :=
  [A9MEM1520; A9MEM1521; A9MEM1522; A9MEM1540; A9MEM1541; A9MEM1542;
   A9MEM1560; A9MEM1561; A9MEM1562; A9MEM1563; A9MEM1570; A9MEM1571;
   A9MEM1572; LV434020; LV434021; LV434022; LV434023; A9MEM1543;
   A9XMC2D3; A9XMC1D3; A9MEM1564; A9MEM1573; A9MEM1574; A9MEM1590;
   A9MEM1591; A9MEM1592; A9MEM1593; A9MEM1580; A9XMWRD; SMT10020].
Definition codes : list Z := map (fun p => fst (value p)) members.
End ProductType.

(** ** The alarm bit field *)

Module AlarmStatus.

Record t : Type := mk {
  has_alarm : bool;
  alarm_voltage_loss : bool;
  alarm_current_overload : bool;
  alarm_overload_45_percent : bool;
  alarm_load_current_loss : bool;
  alarm_overvoltage : bool;
  alarm_undervoltage : bool;
  alarm_heattag_alarm : bool;
  alarm_heattag_maintenance : bool;
  alarm_heattag_replacement : bool
}.

(** [x != 0]. *)
Definition nonzero (x : Z) : bool := negb (x =? 0).

(** The masks are the source's binary literals, written in hexadecimal:
    [0b1111_1111] is [0xFF], [0b0001_0000_0000] is [0x100],
    [0b0100_0000_0000] is [0x400] and [0b1000_0000_0000] is [0x800]. *)
Definition __init__ (bitmask : option Z) : result t :=
  lower_mask <~ Py.and_ bitmask 0xFF ;;
  Ok {| has_alarm := nonzero lower_mask;
        alarm_voltage_loss := nonzero (Z.land lower_mask 0x01);
        alarm_current_overload := nonzero (Z.land lower_mask 0x02);
        alarm_overload_45_percent := nonzero (Z.land lower_mask 0x08);
        alarm_load_current_loss := nonzero (Z.land lower_mask 0x10);
        alarm_overvoltage := nonzero (Z.land lower_mask 0x20);
        alarm_undervoltage := nonzero (Z.land lower_mask 0x40);
        alarm_heattag_alarm := nonzero (Z.land lower_mask 0x100);
        alarm_heattag_maintenance :=
          nonzero (Z.land lower_mask 0x400);
        alarm_heattag_replacement :=
          nonzero (Z.land lower_mask 0x800) |}.

(** The named flags of a decoded bit field, in declaration order. *)
Definition flags (a : t) : list bool :=
  [alarm_voltage_loss a; alarm_current_overload a;
   alarm_overload_45_percent a; alarm_load_current_loss a;
   alarm_overvoltage a; alarm_undervoltage a; alarm_heattag_alarm a;
   alarm_heattag_maintenance a; alarm_heattag_replacement a].

End AlarmStatus.

(** ** The Modbus client and the effects of a call

    The client is the transport: it answers a request for holding registers
    with a register response or with an exception response, or, when no
    reply comes from the unit, with the [ModbusIOException] object that
    pymodbus returns in place of a response.  What it answers may depend on
    the requests issued before.  A call threads the list of requests issued
    so far and ends with a value or an exception. *)

Inductive request : Type :=
| ReadHoldingRegisters (address count slave : Z)
| WriteRegisters (address : Z) (registers : list Z) (unit : Z).

Inductive response : Type :=
| ExceptionResponse (text : str)       (* [text] is [str(response)] *)
| RegistersResponse (registers : list Z)
| ModbusIOException.                   (* no reply; it has no [registers] *)

Record ModbusTcpClient : Type := {
  read_holding_registers : list request -> Z -> Z -> Z -> response
}.

Definition M (A : Type) : Type := list request -> result A * list request.

Definition ret {A} (a : A) : M A := fun log => (Ok a, log).
Definition raise {A} (e : exn) : M A := fun log => (Raise e, log).
Definition lift {A} (r : result A) : M A := fun log => (r, log).
Definition bind {A B} (m : M A) (k : A -> M B) : M B :=
  fun log =>
    match m log with
    | (Ok a, log') => k a log'
    | (Raise e, log') => (Raise e, log')
    end.

(** [try: m / except ConnectionError: handler]. *)
Definition except_ConnectionError {A} (m : M A) (handler : M A) : M A :=
  fun log =>
    match m log with
    | (Raise (ConnectionError _), log') => handler log'
    | outcome => outcome
    end.

(** [assert cond]. *)
Definition assert (cond : bool) : M unit :=
  if cond then ret tt else raise AssertionError.

Notation "x <- c1 ;; c2" := (bind c1 (fun x => c2))
  (at level 61, c1 at next level, right associativity) : py_scope.
Notation "c1 ;;; c2" := (bind c1 (fun _ => c2))
  (at level 61, right associativity) : py_scope.

Definition POWERTAG_LINK_SLAVE_ID : Z := 255.
Definition SYNTHESIS_TABLE_SLAVE_ID_START : Z := 247.

Module SchneiderModbus.

Record t : Type := mk { client : ModbusTcpClient; synthetic_slave_id : Z }.

(** *** Helper functions, which use [self.client] only: [c] *)

(** The response of a write is printed and not inspected. *)
Definition __write (c : ModbusTcpClient) (address : Z) (registers : list Z)
    (unit : Z) : M Datatypes.unit :=
  fun log => (Ok tt, log ++ [WriteRegisters address registers unit]).

Definition __read (c : ModbusTcpClient) (address count unit : Z) : M (list Z) :=
  fun log =>
    let log' := log ++ [ReadHoldingRegisters address count unit] in
    match read_holding_registers c log address count unit with
    | ExceptionResponse text => (Raise (ConnectionError text), log')
    | RegistersResponse registers => (Ok registers, log')
    | ModbusIOException => (Raise AttributeError, log')
    end.

Definition decoder (registers : list Z) : result BinaryPayloadDecoder.t :=
  BinaryPayloadDecoder.fromRegisters registers.

(** [(1 <= unit <= 247) or (unit == 255)]. *)
Definition unit_in_range (unit : Z) : bool :=
  ((1 <=? unit) && (unit <=? 247)) || (unit =? 255).

(** Iterating the [bytes] object [ascii_bytes] yields ints, which the
    test [c == '\x00'] compares with a one-character [str]. *)
Definition __read_string (c : ModbusTcpClient)
    (address count unit string_length : Z) : M (option str) :=
  registers <- __read c address count unit ;;
  lift (d <~ decoder registers ;;
        let (ascii_bytes, _) :=
          BinaryPayloadDecoder.decode_string string_length d in
        if forallb (fun c => Py.eq (Int c) (Str [0])) ascii_bytes
        then Ok None
        else
          let filtered_ascii_bytes :=
            filter (fun b => negb (b =? 0)) ascii_bytes in
          s <~ Py.decode filtered_ascii_bytes ;; Ok (Some s)).

Definition __read_float_32 (c : ModbusTcpClient) (address unit : Z)
    : M (option float32) :=
  assert (unit_in_range unit) ;;;
  registers <- __read c address 2 unit ;;
  lift (d <~ decoder registers ;;
        '(result, _) <~ BinaryPayloadDecoder.decode_32bit_float d ;;
        Ok (if negb (isnan result) then Some result else None)).

Definition __read_int_16 (c : ModbusTcpClient) (address unit : Z)
    : M (option Z) :=
  assert (unit_in_range unit) ;;;
  registers <- __read c address 1 unit ;;
  lift (d <~ decoder registers ;;
        '(result, _) <~ BinaryPayloadDecoder.decode_16bit_uint d ;;
        Ok (if negb (result =? 0xFFFF) then Some result else None)).

Definition __write_int_16 (c : ModbusTcpClient) (address unit value : Z)
    : M Datatypes.unit :=
  assert (unit_in_range unit) ;;;
  builder <- lift (BinaryPayloadBuilder.add_16bit_uint
                     BinaryPayloadBuilder.new value) ;;
  __write c address (BinaryPayloadBuilder.to_registers builder) unit.

Definition __read_int_32 (c : ModbusTcpClient) (address unit : Z)
    : M (option Z) :=
  assert (unit_in_range unit) ;;;
  registers <- __read c address 2 unit ;;
  lift (d <~ decoder registers ;;
        '(result, _) <~ BinaryPayloadDecoder.decode_32bit_uint d ;;
        Ok (if negb (result =? 0x80000000) then Some result else None)).

Definition __read_int_64 (c : ModbusTcpClient) (address unit : Z)
    : M (option Z) :=
  assert (unit_in_range unit) ;;;
  registers <- __read c address 4 unit ;;
  lift (d <~ decoder registers ;;
        '(result, _) <~ BinaryPayloadDecoder.decode_64bit_uint d ;;
        Ok (if negb (result =? 0x8000000000000000)
            then Some result else None)).

(** [math.floor(second_millisecond / 1000)] is the floored quotient. *)
Definition __read_date_time (c : ModbusTcpClient) (address unit : Z)
    : M (option datetime) :=
  registers <- __read c address 4 unit ;;
  lift (d <~ decoder registers ;;
        '(year_raw, d) <~ BinaryPayloadDecoder.decode_16bit_uint d ;;
        let year := Z.land year_raw 0x7F + 2000 in
        '(day_month, d) <~ BinaryPayloadDecoder.decode_16bit_uint d ;;
        let day := Z.land day_month 0x1F in
        let month := Z.land (Z.shiftr day_month 8) 0x0F in
        '(minute_hour, d) <~ BinaryPayloadDecoder.decode_16bit_uint d ;;
        let minute := Z.land minute_hour 0x3F in
        let hour := Z.land (Z.shiftr minute_hour 8) 0x1F in
        '(second_millisecond, d) <~
           BinaryPayloadDecoder.decode_16bit_uint d ;;
        let second := second_millisecond / 1000 in
        let millisecond := second_millisecond - second * 1000 in
        if (year_raw =? 0xFFFF) && (day_month =? 0xFFFF)
           && (minute_hour =? 0xFFFF) && (second_millisecond =? 0xFFFF)
        then Ok None
        else
          t <~ new_datetime year month day hour minute second millisecond ;;
          Ok (Some t)).

(** The body of [for slave_id in candidates: try ... except ...], then
    the [raise] after the loop. *)
Fixpoint probe (c : ModbusTcpClient) (candidates : list Z) : M Z :=
  match candidates with
  | [] =>
    raise (ConnectionError
             (str_of_string "Could not find synthetic slave ID"))
  | slave_id :: rest =>
    except_ConnectionError
      (__read_int_16 c 0x0001 slave_id ;;; ret slave_id)
      (probe c rest)
  end.

Definition find_synthentic_table_slave_id (c : ModbusTcpClient) : M Z :=
  probe c (range_down SYNTHESIS_TABLE_SLAVE_ID_START 1).

(** [__init__], from the connected client. *)
Definition __init__ (c : ModbusTcpClient) : M t :=
  slave_id <- find_synthentic_table_slave_id c ;;
  ret (mk c slave_id).

(** *** The accessors *)

Section Accessors.
Variable self : t.
Abbreviation c := (client self).

(* Identification *)
Definition hardware_version : M (option str) :=
  __read_string c 0x0050 6 POWERTAG_LINK_SLAVE_ID 11.
Definition serial_number : M (option str) :=
  __read_string c 0x0064 6 POWERTAG_LINK_SLAVE_ID 11.
Definition firmware_version : M (option str) :=
  __read_string c 0x0078 6 POWERTAG_LINK_SLAVE_ID 11.

(* Status *)
Definition status : M PanelserverStatus.t :=
  bitmap <- __read_int_16 c 0x009E POWERTAG_LINK_SLAVE_ID ;;
  lift (PanelserverStatus.call bitmap).

(* Date and Time *)
Definition date_time : M (option datetime) :=
  __read_date_time c 0x0073 POWERTAG_LINK_SLAVE_ID.

(* Current, voltage, power, power factor *)
Definition tag_current (power_tag_index : Z) (phase : Phase.t) :=
  __read_float_32 c (0xBB7 + Phase.value phase) power_tag_index.
Definition tag_voltage (power_tag_index : Z) (line_voltage : LineVoltage.t) :=
  __read_float_32 c (0xBCB + LineVoltage.value line_voltage) power_tag_index.
Definition tag_power_active (power_tag_index : Z) (phase : Phase.t) :=
  __read_float_32 c (0xBED + Phase.value phase) power_tag_index.
Definition tag_power_active_total (power_tag_index : Z) :=
  __read_float_32 c 0xBF3 power_tag_index.
Definition tag_power_apparent_total (power_tag_index : Z) :=
  __read_float_32 c 0xC03 power_tag_index.
Definition tag_power_factor_total (power_tag_index : Z) :=
  __read_float_32 c 0xC0B power_tag_index.

(* Energy *)
Definition tag_energy_active_total (power_tag_index : Z) :=
  __read_int_64 c 0xC83 power_tag_index.
Definition tag_energy_active_partial (power_tag_index : Z) :=
  __read_int_64 c 0xC83 power_tag_index.

(* Power demand *)
Definition tag_power_active_demand_total (power_tag_index : Z) :=
  __read_float_32 c 0x0EB5 power_tag_index.
Definition tag_power_active_power_demand_total_maximum (power_tag_index : Z) :=
  __read_float_32 c 0x0EB9 power_tag_index.
Definition tag_power_active_demand_total_maximum_timestamp
    (power_tag_index : Z) :=
  __read_date_time c 0x0EBB power_tag_index.

(* Alarm *)
Definition tag_is_alarm_valid (power_tag_index : Z) : M bool :=
  v <- __read_int_16 c 0xCE1 power_tag_index ;;
  lift (x <~ Py.and_ v 0x1 ;; Ok (negb (x =? 0))).
Definition tag_get_alarm (power_tag_index : Z) : M AlarmStatus.t :=
  v <- __read_int_16 c 0xCE3 power_tag_index ;;
  lift (AlarmStatus.__init__ v).
Definition tag_current_at_voltage_loss (power_tag_index : Z)
    (phase : Phase.t) :=
  __read_float_32 c (0xCE5 + Phase.value phase) power_tag_index.

(* Load operating time *)
Definition tag_load_operating_time (power_tag_index : Z) :=
  __read_int_32 c 0xCEB power_tag_index.
Definition tag_load_operating_time_active_power_threshold
    (power_tag_index : Z) :=
  __read_float_32 c 0xCED power_tag_index.
Definition tag_load_operating_time_start (power_tag_index : Z) :=
  __read_date_time c 0xCEF power_tag_index.

(* Configuration registers *)
Definition tag_name (power_tag_index : Z) :=
  __read_string c 0x7918 10 power_tag_index 20.
Definition tag_circuit (power_tag_index : Z) :=
  __read_string c 0x7922 3 power_tag_index 5.
Definition tag_usage (power_tag_index : Z) : M DeviceUsage.t :=
  v <- __read_int_16 c 0x7925 power_tag_index ;;
  lift (DeviceUsage.call v).
Definition tag_phase_sequence (power_tag_index : Z) : M PhaseSequence.t :=
  v <- __read_int_16 c 0x7926 power_tag_index ;;
  lift (PhaseSequence.call v).
Definition tag_position (power_tag_index : Z) : M Position.t :=
  v <- __read_int_16 c 0x7927 power_tag_index ;;
  lift (Position.call v).
Definition tag_circuit_diagnostic (power_tag_index : Z) : M Position.t :=
  v <- __read_int_16 c 0x7928 power_tag_index ;;
  lift (Position.call v).
Definition tag_rated_current (power_tag_index : Z) :=
  __read_int_16 c 0x7929 power_tag_index.
Definition tag_rated_voltage (power_tag_index : Z) :=
  __read_float_32 c 0x792B power_tag_index.
Definition tag_reset_peak_demands (power_tag_index : Z) : M unit :=
  __write_int_16 c 0x792E power_tag_index 1.
Definition tag_power_supply_type (power_tag_index : Z) : M Position.t :=
  v <- __read_int_16 c 0x792F power_tag_index ;;
  lift (Position.call v).

(* Device identification *)
Definition tag_product_type (power_tag_index : Z)
    : M (option ProductType.t) :=
  code <- __read_int_16 c 0x7930 power_tag_index ;;
  let product_type :=
    filter (fun p => value_eqb (Some (fst (ProductType.value p))) code)
           ProductType.members in
  ret (match product_type with
       | p :: _ => Some p
       | [] => None
       end).
Definition tag_slave_address (power_tag_index : Z) :=
  __read_int_16 c 0x7931 power_tag_index.
Definition tag_rf_id (power_tag_index : Z) :=
  __read_int_64 c 0x7932 power_tag_index.
Definition tag_product_identifier (power_tag_index : Z) :=
  __read_int_16 c 0x7937 power_tag_index.
Definition tag_vendor_name (power_tag_index : Z) :=
  __read_string c 0x7944 16 power_tag_index 32.
Definition tag_product_code (power_tag_index : Z) :=
  __read_string c 0x7954 16 power_tag_index 32.
Definition tag_firmware_revision (power_tag_index : Z) :=
  __read_string c 0x7964 6 power_tag_index 12.
Definition tag_hardware_revision (power_tag_index : Z) :=
  __read_string c 0x796A 6 power_tag_index 12.
Definition tag_serial_number (power_tag_index : Z) :=
  __read_string c 0x7970 10 power_tag_index 20.
Definition tag_product_range (power_tag_index : Z) :=
  __read_string c 0x797A 8 power_tag_index 16.
Definition tag_product_model (power_tag_index : Z) :=
  __read_string c 0x7982 8 power_tag_index 16.
Definition tag_product_family (power_tag_index : Z) :=
  __read_string c 0x798A 8 power_tag_index 16.

(* Diagnostic data registers *)
Definition tag_radio_communication_valid (power_tag_index : Z) : M bool :=
  v <- __read_int_16 c 0x79A8 power_tag_index ;; ret (Py.ne v 0).
Definition tag_wireless_communication_valid (power_tag_index : Z) : M bool :=
  v <- __read_int_16 c 0x79A9 power_tag_index ;; ret (Py.ne v 0).
Definition tag_radio_per_tag (power_tag_index : Z) :=
  __read_float_32 c 0x79B4 power_tag_index.
Definition tag_radio_rssi_inside_tag (power_tag_index : Z) :=
  __read_float_32 c 0x79B6 power_tag_index.
Definition tag_radio_lqi_tag (power_tag_index : Z) :=
  __read_int_16 c 0x79B8 power_tag_index.
Definition tag_radio_per_gateway (power_tag_index : Z) :=
  __read_float_32 c 0x79AF power_tag_index.
Definition tag_radio_rssi_inside_gateway (power_tag_index : Z) :=
  __read_float_32 c 0x79B1 power_tag_index.
Definition tag_radio_lqi_gateway (power_tag_index : Z) :=
  __read_int_16 c 0x79B3 power_tag_index.
Definition tag_radio_per_maximum (power_tag_index : Z) :=
  __read_float_32 c 0x79B4 power_tag_index.
Definition tag_radio_rssi_minimum (power_tag_index : Z) :=
  __read_float_32 c 0x79B6 power_tag_index.
Definition tag_radio_lqi_minimum (power_tag_index : Z) :=
  __read_int_16 c 0x79B8 power_tag_index.

(* Identification and status register of the synthesis table *)
Definition product_id :=
  __read_int_16 c 0x0001 (synthetic_slave_id self).
Definition manufacturer :=
  __read_string c 0x0002 16 (synthetic_slave_id self) 32.
Definition product_code :=
  __read_string c 0x0012 16 (synthetic_slave_id self) 32.
Definition product_range :=
  __read_string c 0x0022 8 (synthetic_slave_id self) 16.
Definition product_model :=
  __read_string c 0x002A 8 (synthetic_slave_id self) 16.
Definition name :=
  __read_string c 0x0032 10 (synthetic_slave_id self) 20.
Definition product_vendor_url :=
  __read_string c 0x003C 17 (synthetic_slave_id self) 34.

(* Wireless configured devices *)
Definition modbus_address_of_node (node_index : Z) :=
  __read_int_16 c (0x012C + node_index - 1) (synthetic_slave_id self).

End Accessors.

End SchneiderModbus.

(** ** Vocabulary of the statements and sample clients *)

Import SchneiderModbus.

(** The client answers the read of [count] registers at [address] of
    [unit], after the requests [log], with [registers]. *)
Definition answers (c : ModbusTcpClient) (log : list request)
    (address count unit : Z) (registers : list Z) : Prop :=
  read_holding_registers c log address count unit
  = RegistersResponse registers.

(** A client that answers every read with the first [count] words of
    [words], whatever the address and the unit. *)
Definition register_bank (words : list Z) : ModbusTcpClient :=
  {| read_holding_registers :=
       fun _ _ count _ => RegistersResponse (firstn (Z.to_nat count) words) |}.

(** The answers of this client depend on the address only. *)
Definition usage_and_type_registers (usage type : Z) : ModbusTcpClient :=
  {| read_holding_registers :=
       fun _ address _ _ =>
         RegistersResponse [if address =? 0x7925 then usage else type] |}.

(** A client whose register 0x79B6 holds 1.0 and whose other registers
    hold 2.0. *)
Definition rssi_registers : ModbusTcpClient :=
  {| read_holding_registers :=
       fun _ address _ _ =>
         RegistersResponse
           (if address =? 0x79B6 then [0x3F80; 0] else [0x4000; 0]) |}.

Definition probe_request (slave_id : Z) : request :=
  ReadHoldingRegisters 0x0001 1 slave_id.

(** The client answers every probe of [slave_id] with an exception
    response. *)
Definition refuses (c : ModbusTcpClient) (slave_id : Z) : Prop :=
  forall log, exists text,
    read_holding_registers c log 0x0001 1 slave_id = ExceptionResponse text.


(** A gateway whose synthesis table answers on unit 42 only, the other
    units being refused with an exception response, and one that refuses
    every unit. *)
Definition table_on_unit_42 : ModbusTcpClient :=
  {| read_holding_registers :=
       fun _ _ _ slave =>
         if slave =? 42 then RegistersResponse [17]
         else ExceptionResponse (str_of_string "Exception Response") |}.

Definition silent_gateway : ModbusTcpClient :=
  {| read_holding_registers :=
       fun _ _ _ _ => ExceptionResponse (str_of_string "Exception Response") |}.




(** A client that answers every read with [registers], whatever the count
    asked for. *)
Definition fixed_response (registers : list Z) : ModbusTcpClient :=
  {| read_holding_registers := fun _ _ _ _ => RegistersResponse registers |}.



(** Bytes that stand in no UTF-8 sequence. *)
Definition never_utf8 (b : Z) : Prop := b = 0xC0 \/ b = 0xC1 \/ 0xF5 <= b.

(** A gateway whose unit 42 answers the probe with no register at all. *)
Definition empty_reply_on_unit_42 : ModbusTcpClient :=
  {| read_holding_registers :=
       fun _ _ _ slave =>
         if slave =? 42 then RegistersResponse []
         else ExceptionResponse (str_of_string "Exception Response") |}.

(** * Properties *)

Section Runs.
Variable c : ModbusTcpClient.
Variables (log : list request) (address unit : Z).

Lemma read_answered count registers :
  answers c log address count unit registers ->
  __read c address count unit log
  = (Ok registers, log ++ [ReadHoldingRegisters address count unit]).
Proof. unfold answers, __read. intros ->. reflexivity. Qed.

Lemma read_logs count :
  snd (__read c address count unit log)
  = log ++ [ReadHoldingRegisters address count unit].
Proof.
  unfold __read.
  destruct (read_holding_registers c log address count unit); reflexivity.
Qed.

Lemma assert_holds {A} (m : M A) :
  unit_in_range unit = true ->
  (assert (unit_in_range unit) ;;; m) log = m log.
Proof. intros H. unfold bind, assert. rewrite H. reflexivity. Qed.

Lemma assert_fails {A} (m : M A) :
  unit_in_range unit = false ->
  (assert (unit_in_range unit) ;;; m) log = (Raise AssertionError, log).
Proof. intros H. unfold bind, assert. rewrite H. reflexivity. Qed.
End Runs.

Lemma pack_H_unpack (w : Z) :
  0 <= w < 65536 -> unpack_uint 2 (pack_H w) = Ok w.
Proof.
  intros H. unfold unpack_uint, pack_H. cbn [List.length Nat.eqb fold_left].
  f_equal. pose proof (Z.div_mod w 256). lia.
Qed.

Lemma is_u16_true (w : Z) : is_u16 w = true <-> 0 <= w < 65536.
Proof. unfold is_u16. rewrite andb_true_iff, Z.leb_le, Z.ltb_lt. tauto. Qed.

Lemma forallb_u16_cons (w : Z) (ws : list Z) :
  forallb is_u16 (w :: ws) = true ->
  0 <= w < 65536 /\ forallb is_u16 ws = true.
Proof.
  cbn [forallb]. rewrite andb_true_iff, is_u16_true. tauto.
Qed.

(** Running a read whose unit is in range and whose request is answered:
    what remains is the pure decoding of the registers. *)
Ltac run_read Hunit Hans :=
  rewrite assert_holds by exact Hunit;
  unfold bind at 1; erewrite read_answered by exact Hans;
  unfold lift; f_equal.

Ltac unpack_words :=
  unfold decoder, BinaryPayloadDecoder.fromRegisters;
  match goal with H : forallb is_u16 _ = true |- _ => rewrite H end;
  cbn [rbind flat_map];
  unfold BinaryPayloadDecoder.decode_16bit_uint,
    BinaryPayloadDecoder.decode_32bit_uint,
    BinaryPayloadDecoder.decode_64bit_uint,
    BinaryPayloadDecoder.decode_uint, BinaryPayloadDecoder.advance;
  cbn [BinaryPayloadDecoder.pointer BinaryPayloadDecoder.payload skipn
       pack_H app firstn];
  unfold unpack_uint; cbn [List.length Nat.eqb fold_left rbind].

Ltac split_word w :=
  pose proof (Z.div_mod w 256);
  pose proof (Z.mod_pos_bound w 256).

Section UnsignedReads.
Variable c : ModbusTcpClient.
Variables (log : list request) (address unit : Z).
Hypothesis unit_ok : unit_in_range unit = true.

Lemma read_int_16_first_word (w : Z) (rest : list Z) :
  forallb is_u16 (w :: rest) = true ->
  answers c log address 1 unit (w :: rest) ->
  __read_int_16 c address unit log
  = (Ok (if w =? 0xFFFF then None else Some w),
     log ++ [ReadHoldingRegisters address 1 unit]).
Proof.
  intros H Hans. unfold __read_int_16. run_read unit_ok Hans.
  destruct (forallb_u16_cons _ _ H) as [Hw _].
  unpack_words. split_word w.
  replace ((0 * 256 + w / 256) * 256 + w mod 256) with w by lia.
  destruct (w =? 0xFFFF); reflexivity.
Qed.

Lemma read_int_16_value (w : Z) :
  0 <= w < 65536 ->
  answers c log address 1 unit [w] ->
  __read_int_16 c address unit log
  = (Ok (if w =? 0xFFFF then None else Some w),
     log ++ [ReadHoldingRegisters address 1 unit]).
Proof.
  intros Hw. apply read_int_16_first_word.
  cbn. rewrite (proj2 (is_u16_true w) Hw). reflexivity.
Qed.

Lemma read_int_32_value (w0 w1 : Z) :
  0 <= w0 < 65536 -> 0 <= w1 < 65536 ->
  answers c log address 2 unit [w0; w1] ->
  __read_int_32 c address unit log
  = (Ok (let v := w0 * 65536 + w1 in
         if v =? 0x80000000 then None else Some v),
     log ++ [ReadHoldingRegisters address 2 unit]).
Proof.
  intros H0 H1 Hans. unfold __read_int_32. run_read unit_ok Hans.
  assert (H : forallb is_u16 [w0; w1] = true)
    by (cbn; rewrite (proj2 (is_u16_true w0) H0),
          (proj2 (is_u16_true w1) H1); reflexivity).
  unpack_words. split_word w0. split_word w1.
  match goal with |- context [negb (?x =? _)] =>
    replace x with (w0 * 65536 + w1) by lia end.
  cbv zeta. destruct (w0 * 65536 + w1 =? 0x80000000); reflexivity.
Qed.

Lemma read_int_64_value (w0 w1 w2 w3 : Z) :
  0 <= w0 < 65536 -> 0 <= w1 < 65536 ->
  0 <= w2 < 65536 -> 0 <= w3 < 65536 ->
  answers c log address 4 unit [w0; w1; w2; w3] ->
  __read_int_64 c address unit log
  = (Ok (let v := ((w0 * 65536 + w1) * 65536 + w2) * 65536 + w3 in
         if v =? 0x8000000000000000 then None else Some v),
     log ++ [ReadHoldingRegisters address 4 unit]).
Proof.
  intros H0 H1 H2 H3 Hans. unfold __read_int_64. run_read unit_ok Hans.
  assert (H : forallb is_u16 [w0; w1; w2; w3] = true)
    by (cbn; rewrite (proj2 (is_u16_true w0) H0),
          (proj2 (is_u16_true w1) H1), (proj2 (is_u16_true w2) H2),
          (proj2 (is_u16_true w3) H3); reflexivity).
  unpack_words. split_word w0. split_word w1. split_word w2. split_word w3.
  match goal with |- context [negb (?x =? _)] =>
    replace x with (((w0 * 65536 + w1) * 65536 + w2) * 65536 + w3) by lia
  end.
  cbv zeta.
  destruct (((w0 * 65536 + w1) * 65536 + w2) * 65536 + w3
            =? 0x8000000000000000); reflexivity.
Qed.
End UnsignedReads.

(** C6.  With a unit in range and 16-bit words, the unsigned reads compose
    the words they are answered with most significant word first and are
    absent exactly when the composed value is the reserved pattern of the
    type: 0xFFFF for one word, 0x8000_0000 for two words and
    0x8000_0000_0000_0000 for four words.  In every other case they return
    the composed value itself. *)
Theorem unsigned_reads_sentinel_is_absence
    (c : ModbusTcpClient) (log : list request) (address unit : Z)
    (w0 w1 w2 w3 : Z) :
  unit_in_range unit = true ->
  0 <= w0 < 65536 -> 0 <= w1 < 65536 ->
  0 <= w2 < 65536 -> 0 <= w3 < 65536 ->
  (answers c log address 1 unit [w0] ->
   fst (__read_int_16 c address unit log)
   = Ok (if w0 =? 0xFFFF then None else Some w0))
  /\ (answers c log address 2 unit [w0; w1] ->
      fst (__read_int_32 c address unit log)
      = Ok (let v := w0 * 0x10000 + w1 in
            if v =? 0x80000000 then None else Some v))
  /\ (answers c log address 4 unit [w0; w1; w2; w3] ->
      fst (__read_int_64 c address unit log)
      = Ok (let v := w0 * 0x1000000000000 + w1 * 0x100000000
                     + w2 * 0x10000 + w3 in
            if v =? 0x8000000000000000 then None else Some v)).
Proof.
  intros Hu H0 H1 H2 H3. split; [|split]; intros Hans.
  - rewrite (read_int_16_value c log address unit Hu w0 H0 Hans).
    reflexivity.
  - rewrite (read_int_32_value c log address unit Hu w0 w1 H0 H1 Hans).
    reflexivity.
  - rewrite (read_int_64_value c log address unit Hu w0 w1 w2 w3
               H0 H1 H2 H3 Hans).
    cbn [fst]. f_equal.
    replace (w0 * 0x1000000000000 + w1 * 0x100000000 + w2 * 0x10000 + w3)
      with (((w0 * 65536 + w1) * 65536 + w2) * 65536 + w3) by lia.
    reflexivity.
Qed.

Lemma unsigned_reads_sentinel_is_absence_witness :
  let c := register_bank [0x8000; 0; 0; 0] in
  fst (__read_int_16 c 0xCE1 1 []) = Ok (Some 0x8000)
  /\ fst (__read_int_32 c 0xCEB 1 []) = Ok None
  /\ fst (__read_int_64 c 0xC83 1 []) = Ok None.
Proof.
  intros c.
  assert (Hu : unit_in_range 1 = true) by reflexivity.
  assert (H0 : 0 <= 0x8000 < 65536) by lia.
  assert (Hz : 0 <= 0 < 65536) by lia.
  split; [|split].
  - exact (proj1 (unsigned_reads_sentinel_is_absence
                    c [] 0xCE1 1 0x8000 0 0 0 Hu H0 Hz Hz Hz) eq_refl).
  - exact (proj1 (proj2 (unsigned_reads_sentinel_is_absence
                    c [] 0xCEB 1 0x8000 0 0 0 Hu H0 Hz Hz Hz)) eq_refl).
  - exact (proj2 (proj2 (unsigned_reads_sentinel_is_absence
                    c [] 0xC83 1 0x8000 0 0 0 Hu H0 Hz Hz Hz)) eq_refl).
Defined.

Lemma write_int_16_run (c : ModbusTcpClient) (address unit v : Z)
    (log : list request) :
  unit_in_range unit = true -> 0 <= v < 65536 ->
  __write_int_16 c address unit v log
  = (Ok tt, log ++ [WriteRegisters address [v] unit]).
Proof.
  intros Hu Hv. unfold __write_int_16. rewrite assert_holds by exact Hu.
  unfold bind, lift, BinaryPayloadBuilder.add_16bit_uint.
  rewrite (proj2 (is_u16_true v) Hv).
  unfold __write, BinaryPayloadBuilder.to_registers, BinaryPayloadBuilder.new.
  cbn [app List.concat pack_H BinaryPayloadBuilder.words].
  split_word v. replace (v / 256 * 256 + v mod 256) with v by lia.
  reflexivity.
Qed.

(** C7.  With a unit in range, writing a 16-bit value [v] issues one write
    request whose registers, read back as one word, decode to [v] when [v]
    is not 0xFFFF; writing 0xFFFF puts the reserved pattern on the wire and
    reading it back is absent. *)
Theorem int_16_write_then_read
    (c : ModbusTcpClient) (log : list request) (address unit v : Z) :
  unit_in_range unit = true ->
  0 <= v < 65536 ->
  exists registers,
    __write_int_16 c address unit v log
    = (Ok tt, log ++ [WriteRegisters address registers unit])
    /\ forall c' log',
         answers c' log' address 1 unit registers ->
         fst (__read_int_16 c' address unit log')
         = Ok (if v =? 0xFFFF then None else Some v).
Proof.
  intros Hu Hv. exists [v]. split.
  - apply write_int_16_run; assumption.
  - intros c' log' Hans.
    rewrite (read_int_16_value c' log' address unit Hu v Hv Hans).
    reflexivity.
Qed.

Lemma int_16_write_then_read_witness :
  exists registers,
    __write_int_16 (register_bank [1]) 0x792E 7 1 []
    = (Ok tt, [WriteRegisters 0x792E registers 7])
    /\ forall c' log',
         answers c' log' 0x792E 1 7 registers ->
         fst (__read_int_16 c' 0x792E 7 log') = Ok (Some 1).
Proof.
  apply (int_16_write_then_read (register_bank [1]) [] 0x792E 7 1).
  - reflexivity.
  - lia.
Defined.

(** C10.  When the alarm-validity register holds the reserved pattern
    0xFFFF, [tag_is_alarm_valid] returns neither a boolean nor an absent
    value: the 16-bit read is absent and the bitwise and of [None] with 1
    raises a [TypeError], after the one read request. *)
Theorem tag_is_alarm_valid_sentinel_raises
    (self : SchneiderModbus.t) (log : list request) (power_tag_index : Z) :
  unit_in_range power_tag_index = true ->
  answers (client self) log 0xCE1 1 power_tag_index [0xFFFF] ->
  tag_is_alarm_valid self power_tag_index log
  = (Raise TypeError,
     log ++ [ReadHoldingRegisters 0xCE1 1 power_tag_index]).
Proof.
  intros Hu Hans. unfold tag_is_alarm_valid, bind.
  rewrite (read_int_16_value _ _ _ _ Hu 0xFFFF ltac:(lia) Hans).
  reflexivity.
Qed.

Lemma tag_is_alarm_valid_sentinel_raises_witness :
  tag_is_alarm_valid (mk (register_bank [0xFFFF]) 247) 1 []
  = (Raise TypeError, [ReadHoldingRegisters 0xCE1 1 1]).
Proof.
  apply (tag_is_alarm_valid_sentinel_raises
           (mk (register_bank [0xFFFF]) 247) [] 1); reflexivity.
Defined.

(** When the register holds a value, the accessor returns its bit 0. *)
Lemma tag_is_alarm_valid_value
    (self : SchneiderModbus.t) (log : list request) (power_tag_index w : Z) :
  unit_in_range power_tag_index = true ->
  0 <= w < 0xFFFF ->
  answers (client self) log 0xCE1 1 power_tag_index [w] ->
  fst (tag_is_alarm_valid self power_tag_index log) = Ok (Z.odd w).
Proof.
  intros Hu Hw Hans. unfold tag_is_alarm_valid, bind.
  rewrite (read_int_16_value _ _ _ _ Hu w ltac:(lia) Hans).
  destruct (Z.eqb_spec w 0xFFFF) as [->|_]; [lia|].
  cbn [fst lift Py.and_ rbind]. f_equal.
  change 1 with (Z.ones 1). rewrite Z.land_ones by lia.
  change (2 ^ 1) with 2. rewrite Zmod_odd.
  destruct (Z.odd w); reflexivity.
Qed.

Lemma filter_no_code (code : Z) (l : list ProductType.t) :
  ~ In code (map (fun p => fst (ProductType.value p)) l) ->
  filter (fun p => value_eqb (Some (fst (ProductType.value p))) (Some code)) l
  = [].
Proof.
  induction l as [|p l IH]; [reflexivity|].
  cbn [map In filter value_eqb]. intros H.
  destruct (Z.eqb_spec (fst (ProductType.value p)) code) as [E|_].
  - exfalso. apply H. left. exact E.
  - apply IH. intros Hin. apply H. right. exact Hin.
Qed.

Lemma DeviceUsage_call_unmapped (code : Z) :
  ~ 1 <= code <= 21 -> DeviceUsage.call (Some code) = Raise ValueError.
Proof.
  intros H. unfold DeviceUsage.call, enum_call, DeviceUsage.members.
  cbn [find DeviceUsage.value value_eqb].
  repeat match goal with
         | |- context [?k =? code] =>
           destruct (Z.eqb_spec k code); [lia|]
         end.
  reflexivity.
Qed.

(** C8.  [tag_product_type] returns the member [LV434020] for the code 92
    and no member, without failing, for a code that the table does not
    list.  [tag_usage] returns [other] for the code 21, raises a
    [ValueError] for a code outside 1..21 other than 0xFFFF, and returns the
    member [INVALID] for the reserved pattern 0xFFFF, which reads as
    [None]. *)
Theorem enum_decode_policies
    (self : SchneiderModbus.t) (log : list request)
    (power_tag_index code : Z) :
  unit_in_range power_tag_index = true ->
  0 <= code < 65536 ->
  (answers (client self) log 0x7930 1 power_tag_index [92] ->
   fst (tag_product_type self power_tag_index log)
   = Ok (Some ProductType.LV434020))
  /\ (answers (client self) log 0x7930 1 power_tag_index [code] ->
      ~ In code ProductType.codes ->
      fst (tag_product_type self power_tag_index log) = Ok None)
  /\ (answers (client self) log 0x7925 1 power_tag_index [21] ->
      fst (tag_usage self power_tag_index log) = Ok DeviceUsage.other)
  /\ (answers (client self) log 0x7925 1 power_tag_index [code] ->
      ~ 1 <= code <= 21 -> code <> 0xFFFF ->
      fst (tag_usage self power_tag_index log) = Raise ValueError)
  /\ (answers (client self) log 0x7925 1 power_tag_index [0xFFFF] ->
      fst (tag_usage self power_tag_index log) = Ok DeviceUsage.INVALID).
Proof.
  intros Hu Hc. split; [|split; [|split; [|split]]].
  - intros Hans. unfold tag_product_type, bind.
    rewrite (read_int_16_value _ _ _ _ Hu 92 ltac:(lia) Hans). reflexivity.
  - intros Hans Hno. unfold tag_product_type, bind.
    rewrite (read_int_16_value _ _ _ _ Hu code Hc Hans).
    destruct (code =? 0xFFFF).
    + reflexivity.
    + rewrite filter_no_code by exact Hno. reflexivity.
  - intros Hans. unfold tag_usage, bind.
    rewrite (read_int_16_value _ _ _ _ Hu 21 ltac:(lia) Hans). reflexivity.
  - intros Hans Hno Hne. unfold tag_usage, bind.
    rewrite (read_int_16_value _ _ _ _ Hu code Hc Hans).
    destruct (Z.eqb_spec code 0xFFFF) as [E|_]; [contradiction|].
    unfold lift. cbn [fst]. apply DeviceUsage_call_unmapped. exact Hno.
  - intros Hans. unfold tag_usage, bind.
    rewrite (read_int_16_value _ _ _ _ Hu 0xFFFF ltac:(lia) Hans).
    reflexivity.
Qed.

Lemma enum_decode_policies_witness :
  let known := mk (usage_and_type_registers 21 92) 247 in
  let unknown := mk (usage_and_type_registers 22 91) 247 in
  let invalid := mk (usage_and_type_registers 0xFFFF 0xFFFF) 247 in
  fst (tag_product_type known 1 []) = Ok (Some ProductType.LV434020)
  /\ fst (tag_product_type unknown 1 []) = Ok None
  /\ fst (tag_usage known 1 []) = Ok DeviceUsage.other
  /\ fst (tag_usage unknown 1 []) = Raise ValueError
  /\ fst (tag_usage invalid 1 []) = Ok DeviceUsage.INVALID.
Proof.
  intros known unknown invalid.
  assert (Hu : unit_in_range 1 = true) by reflexivity.
  pose proof (enum_decode_policies known [] 1 91 Hu ltac:(lia)) as K.
  pose proof (enum_decode_policies unknown [] 1 91 Hu ltac:(lia)) as U.
  pose proof (enum_decode_policies unknown [] 1 22 Hu ltac:(lia)) as U'.
  pose proof (enum_decode_policies invalid [] 1 91 Hu ltac:(lia)) as I.
  split; [|split; [|split; [|split]]].
  - apply K. reflexivity.
  - apply U; [reflexivity|]. vm_compute. intuition discriminate.
  - apply K. reflexivity.
  - apply U'; [reflexivity|lia|lia].
  - apply I. reflexivity.
Defined.

(** ** The alarm bit field *)

Lemma nonzero_land_pow2 (v n : Z) :
  0 <= n -> AlarmStatus.nonzero (Z.land v (2 ^ n)) = Z.testbit v n.
Proof.
  intros Hn. unfold AlarmStatus.nonzero.
  destruct (Z.testbit v n) eqn:E.
  - destruct (Z.eqb_spec (Z.land v (2 ^ n)) 0) as [H|_]; [|reflexivity].
    apply (f_equal (fun x => Z.testbit x n)) in H.
    rewrite Z.land_spec, E, Z.pow2_bits_true, Z.bits_0 in H by exact Hn.
    discriminate H.
  - replace (Z.land v (2 ^ n)) with 0; [reflexivity|].
    symmetry. apply Z.bits_inj'. intros i Hi.
    rewrite Z.land_spec, Z.bits_0, Z.pow2_bits_eqb by exact Hn.
    destruct (Z.eqb_spec n i) as [<-|_].
    + rewrite E. reflexivity.
    + apply andb_false_r.
Qed.

Lemma low_byte_flag (v n : Z) :
  0 <= n < 8 ->
  AlarmStatus.nonzero (Z.land (Z.land v 0xFF) (2 ^ n)) = Z.testbit v n.
Proof.
  intros Hn. rewrite <- nonzero_land_pow2 by lia.
  rewrite <- Z.land_assoc. f_equal. f_equal.
  assert (n = 0 \/ n = 1 \/ n = 2 \/ n = 3 \/ n = 4 \/ n = 5 \/ n = 6
          \/ n = 7) as H by lia.
  repeat (destruct H as [->|H]; [reflexivity|]). subst n. reflexivity.
Qed.

Lemma low_byte_nonzero (v : Z) :
  AlarmStatus.nonzero (Z.land v 0xFF)
  = existsb (Z.testbit v) [0; 1; 2; 3; 4; 5; 6; 7].
Proof.
  unfold AlarmStatus.nonzero.
  destruct (existsb (Z.testbit v) [0; 1; 2; 3; 4; 5; 6; 7]) eqn:E.
  - apply existsb_exists in E as (i & Hi & Hbit).
    destruct (Z.eqb_spec (Z.land v 0xFF) 0) as [H|_]; [|reflexivity].
    apply (f_equal (fun x => Z.testbit x i)) in H.
    rewrite Z.land_spec, Hbit, Z.bits_0 in H.
    cbn [In] in Hi.
    repeat (destruct Hi as [<-|Hi]; [discriminate H|]). contradiction.
  - replace (Z.land v 0xFF) with 0; [reflexivity|].
    symmetry. apply Z.bits_inj'. intros i Hi.
    rewrite Z.land_spec, Z.bits_0.
    cbn [existsb] in E. repeat rewrite orb_false_iff in E.
    destruct E as (E0 & E1 & E2 & E3 & E4 & E5 & E6 & E7 & _).
    assert (i = 0 \/ i = 1 \/ i = 2 \/ i = 3 \/ i = 4 \/ i = 5 \/ i = 6
            \/ i = 7 \/ 8 <= i) as H by lia.
    repeat (destruct H as [->|H];
            [first [rewrite E0 | rewrite E1 | rewrite E2 | rewrite E3
                   | rewrite E4 | rewrite E5 | rewrite E6 | rewrite E7];
             reflexivity|]).
    change 0xFF with (Z.ones 8). rewrite Z.ones_spec_high by lia.
    apply andb_false_r.
Qed.

(** C1, as the code has it.  For every integer [v] the constructor of
    [AlarmStatus] returns a value: it neither fails nor is absent.  The
    flags [alarm_voltage_loss], [alarm_current_overload],
    [alarm_overload_45_percent], [alarm_load_current_loss],
    [alarm_overvoltage] and [alarm_undervoltage] are the bits 0, 1, 3, 4, 5
    and 6 of [v], whatever the other bits.  [has_alarm] holds exactly when
    one of the low eight bits of [v] is set: the six flags and the unnamed
    bits 2 and 7.  For [0b0000_0011] the flags [alarm_voltage_loss] and
    [alarm_current_overload] and [has_alarm] are set and every other flag
    is clear; for 0 everything is clear. *)
Theorem AlarmStatus_decode :
  (forall v : Z,
     exists a,
       AlarmStatus.__init__ (Some v) = Ok a
       /\ AlarmStatus.alarm_voltage_loss a = Z.testbit v 0
       /\ AlarmStatus.alarm_current_overload a = Z.testbit v 1
       /\ AlarmStatus.alarm_overload_45_percent a = Z.testbit v 3
       /\ AlarmStatus.alarm_load_current_loss a = Z.testbit v 4
       /\ AlarmStatus.alarm_overvoltage a = Z.testbit v 5
       /\ AlarmStatus.alarm_undervoltage a = Z.testbit v 6
       /\ AlarmStatus.has_alarm a
          = existsb (Z.testbit v) [0; 1; 2; 3; 4; 5; 6; 7])
  /\ AlarmStatus.__init__ (Some 0x03)
     = Ok {| AlarmStatus.has_alarm := true;
             AlarmStatus.alarm_voltage_loss := true;
             AlarmStatus.alarm_current_overload := true;
             AlarmStatus.alarm_overload_45_percent := false;
             AlarmStatus.alarm_load_current_loss := false;
             AlarmStatus.alarm_overvoltage := false;
             AlarmStatus.alarm_undervoltage := false;
             AlarmStatus.alarm_heattag_alarm := false;
             AlarmStatus.alarm_heattag_maintenance := false;
             AlarmStatus.alarm_heattag_replacement := false |}
  /\ AlarmStatus.__init__ (Some 0)
     = Ok {| AlarmStatus.has_alarm := false;
             AlarmStatus.alarm_voltage_loss := false;
             AlarmStatus.alarm_current_overload := false;
             AlarmStatus.alarm_overload_45_percent := false;
             AlarmStatus.alarm_load_current_loss := false;
             AlarmStatus.alarm_overvoltage := false;
             AlarmStatus.alarm_undervoltage := false;
             AlarmStatus.alarm_heattag_alarm := false;
             AlarmStatus.alarm_heattag_maintenance := false;
             AlarmStatus.alarm_heattag_replacement := false |}.
Proof.
  split; [|split; reflexivity].
  intros v. eexists. split; [reflexivity|].
  cbn [AlarmStatus.alarm_voltage_loss AlarmStatus.alarm_current_overload
       AlarmStatus.alarm_overload_45_percent
       AlarmStatus.alarm_load_current_loss AlarmStatus.alarm_overvoltage
       AlarmStatus.alarm_undervoltage AlarmStatus.has_alarm].
  repeat split.
  - apply (low_byte_flag v 0). lia.
  - apply (low_byte_flag v 1). lia.
  - apply (low_byte_flag v 3). lia.
  - apply (low_byte_flag v 4). lia.
  - apply (low_byte_flag v 5). lia.
  - apply (low_byte_flag v 6). lia.
  - apply low_byte_nonzero.
Qed.

(** C1 as stated fails at [0b0000_0100], the reserved bit 2: [has_alarm]
    is set while no named flag is. *)
Lemma AlarmStatus_has_alarm_without_named_flag :
  exists a,
    AlarmStatus.__init__ (Some 0x04) = Ok a
    /\ ~ (AlarmStatus.has_alarm a = true
          <-> existsb (fun flag => flag) (AlarmStatus.flags a) = true).
Proof.
  eexists. split; [reflexivity|].
  cbv. intros [H _]. specialize (H eq_refl). discriminate H.
Qed.

(** The three HeatTag flags test bits 8, 10 and 11 of the low byte. *)
Lemma AlarmStatus_heattag_flags_masked (v : Z) :
  exists a,
    AlarmStatus.__init__ (Some v) = Ok a
    /\ AlarmStatus.alarm_heattag_alarm a = false
    /\ AlarmStatus.alarm_heattag_maintenance a = false
    /\ AlarmStatus.alarm_heattag_replacement a = false.
Proof.
  eexists. split; [reflexivity|].
  cbn [AlarmStatus.alarm_heattag_alarm AlarmStatus.alarm_heattag_maintenance
       AlarmStatus.alarm_heattag_replacement].
  rewrite <- !Z.land_assoc.
  change (Z.land 0xFF 0x100) with 0. change (Z.land 0xFF 0x400) with 0.
  change (Z.land 0xFF 0x800) with 0. rewrite Z.land_0_r.
  repeat split.
Qed.

Lemma AlarmStatus_heattag_bit_8_lost :
  Z.testbit 0x100 8 = true
  /\ exists a, AlarmStatus.__init__ (Some 0x100) = Ok a
              /\ AlarmStatus.alarm_heattag_alarm a = false
              /\ AlarmStatus.has_alarm a = false.
Proof. split; [reflexivity|]. eexists. repeat split. Qed.

(** ** Which requests the reads issue *)

Lemma bind_read_logs {A} (c : ModbusTcpClient) (address count unit : Z)
    (k : list Z -> result A) (log : list request) :
  snd ((registers <- __read c address count unit ;; lift (k registers)) log)
  = log ++ [ReadHoldingRegisters address count unit].
Proof.
  unfold bind, __read, lift.
  destruct (read_holding_registers c log address count unit); reflexivity.
Qed.

Lemma read_float_32_logs (c : ModbusTcpClient) (address unit : Z)
    (log : list request) :
  unit_in_range unit = true ->
  snd (__read_float_32 c address unit log)
  = log ++ [ReadHoldingRegisters address 2 unit].
Proof.
  intros Hu. unfold __read_float_32. rewrite assert_holds by exact Hu.
  apply bind_read_logs.
Qed.

(** The reads and the write that check their unit issue no request when it
    is out of range. *)
Lemma checked_operations_refuse_unit (c : ModbusTcpClient)
    (address unit value : Z) (log : list request) :
  unit_in_range unit = false ->
  __read_int_16 c address unit log = (Raise AssertionError, log)
  /\ __read_int_32 c address unit log = (Raise AssertionError, log)
  /\ __read_int_64 c address unit log = (Raise AssertionError, log)
  /\ __read_float_32 c address unit log = (Raise AssertionError, log)
  /\ __write_int_16 c address unit value log = (Raise AssertionError, log).
Proof.
  intros Hu.
  unfold __read_int_16, __read_int_32, __read_int_64, __read_float_32,
    __write_int_16.
  rewrite !assert_fails by exact Hu. repeat split.
Qed.

(** C4.  The string and date-time reads issue their request whatever the
    unit, since they do not check it.  For the unit 0, which is out of
    range, [tag_name] and [tag_load_operating_time_start] issue the read
    and return what they decode. *)
Theorem string_and_date_time_reads_skip_unit_check :
  (forall (c : ModbusTcpClient) (log : list request)
          (address count unit string_length : Z),
      snd (__read_string c address count unit string_length log)
      = log ++ [ReadHoldingRegisters address count unit]
      /\ snd (__read_date_time c address unit log)
         = log ++ [ReadHoldingRegisters address 4 unit])
  /\ unit_in_range 0 = false
  /\ tag_name (mk (register_bank [0x4142]) 247) 0 []
     = (Ok (Some (str_of_string "AB")), [ReadHoldingRegisters 0x7918 10 0])
  /\ tag_load_operating_time_start
       (mk (register_bank [24; 0x0105; 0x0A1E; 0x0E74]) 247) 0 []
     = (Ok (Some (mk_datetime 2024 1 5 10 30 3 700)),
        [ReadHoldingRegisters 0xCEF 4 0]).
Proof.
  split; [|repeat split].
  intros c log address count unit string_length. split.
  - unfold __read_string. apply bind_read_logs.
  - unfold __read_date_time. apply bind_read_logs.
Qed.

(** ** Radio diagnostics *)

(** C9, as the code has it.  For a tag index in range,
    [tag_radio_rssi_minimum] is the same read as
    [tag_radio_rssi_inside_tag]: both read two words at 0x79B6 as a float.
    [tag_radio_rssi_inside_gateway] reads two words at another address,
    0x79B1. *)
Theorem rssi_minimum_reads_the_tag_rssi_register
    (self : SchneiderModbus.t) (power_tag_index : Z) (log : list request) :
  unit_in_range power_tag_index = true ->
  tag_radio_rssi_minimum self power_tag_index log
  = tag_radio_rssi_inside_tag self power_tag_index log
  /\ snd (tag_radio_rssi_minimum self power_tag_index log)
     = log ++ [ReadHoldingRegisters 0x79B6 2 power_tag_index]
  /\ snd (tag_radio_rssi_inside_gateway self power_tag_index log)
     = log ++ [ReadHoldingRegisters 0x79B1 2 power_tag_index].
Proof.
  intros Hu. split; [reflexivity|].
  unfold tag_radio_rssi_minimum, tag_radio_rssi_inside_gateway.
  split; apply read_float_32_logs; exact Hu.
Qed.

Lemma rssi_minimum_reads_the_tag_rssi_register_witness :
  let self := mk rssi_registers 247 in
  tag_radio_rssi_minimum self 1 [] = tag_radio_rssi_inside_tag self 1 []
  /\ snd (tag_radio_rssi_minimum self 1 [])
     = [ReadHoldingRegisters 0x79B6 2 1]
  /\ snd (tag_radio_rssi_inside_gateway self 1 [])
     = [ReadHoldingRegisters 0x79B1 2 1].
Proof.
  intros self.
  apply (rssi_minimum_reads_the_tag_rssi_register self 1 []). reflexivity.
Defined.

(** C9 as stated fails: on a gateway whose registers at 0x79B6 and 0x79B1
    hold 1.0 and 2.0, the minimum RSSI and the gateway RSSI differ, in
    their requests and in their results. *)
Lemma rssi_minimum_differs_from_gateway_rssi :
  let self := mk rssi_registers 247 in
  tag_radio_rssi_minimum self 1 [] = (Ok (Some 0x3F800000),
                                      [ReadHoldingRegisters 0x79B6 2 1])
  /\ tag_radio_rssi_inside_gateway self 1 []
     = (Ok (Some 0x40000000), [ReadHoldingRegisters 0x79B1 2 1])
  /\ tag_radio_rssi_minimum self 1 []
     <> tag_radio_rssi_inside_gateway self 1 [].
Proof.
  intros self. split; [reflexivity|]. split; [reflexivity|].
  intros H. apply (f_equal snd) in H. discriminate H.
Qed.

(** ** Strings *)

Lemma decode_ascii (bs : list Z) :
  Forall (fun b => 0 <= b < 0x80) bs -> Py.decode bs = Ok bs.
Proof.
  induction 1 as [|b bs Hb _ IH]; [reflexivity|].
  cbn [Py.decode]. destruct (Z.ltb_spec b 0x80) as [_|H]; [|lia].
  rewrite IH. reflexivity.
Qed.

(** An int never equals a [str]: the test for absence holds of the empty
    byte string only. *)
Lemma all_bytes_equal_str (bs : list Z) :
  forallb (fun c => Py.eq (Int c) (Str [0])) bs
  = match bs with [] => true | _ :: _ => false end.
Proof. destruct bs; reflexivity. Qed.

Lemma read_string_value (c : ModbusTcpClient) (log : list request)
    (address count unit string_length : Z) (registers : list Z) :
  answers c log address count unit registers ->
  forallb is_u16 registers = true ->
  __read_string c address count unit string_length log
  = (match firstn (Z.to_nat string_length) (flat_map pack_H registers) with
     | [] => Ok None
     | ascii_bytes =>
       s <~ Py.decode (filter (fun b => negb (b =? 0)) ascii_bytes) ;;
       Ok (Some s)
     end,
     log ++ [ReadHoldingRegisters address count unit]).
Proof.
  intros Hans Hregs. unfold __read_string, bind.
  rewrite (read_answered _ _ _ _ _ _ Hans). unfold lift. f_equal.
  unfold decoder, BinaryPayloadDecoder.fromRegisters. rewrite Hregs.
  cbn [rbind]. unfold BinaryPayloadDecoder.decode_string,
    BinaryPayloadDecoder.advance.
  cbn [BinaryPayloadDecoder.pointer BinaryPayloadDecoder.payload skipn].
  rewrite all_bytes_equal_str.
  destruct (firstn (Z.to_nat string_length) (flat_map pack_H registers));
    reflexivity.
Qed.

(** The read is absent only when no byte was decoded at all. *)
Lemma read_string_absent_only_if_empty (c : ModbusTcpClient)
    (log : list request) (address count unit string_length : Z)
    (registers : list Z) :
  answers c log address count unit registers ->
  forallb is_u16 registers = true ->
  fst (__read_string c address count unit string_length log) = Ok None ->
  firstn (Z.to_nat string_length) (flat_map pack_H registers) = [].
Proof.
  intros Hans Hregs. rewrite (read_string_value _ _ _ _ _ _ _ Hans Hregs).
  cbn [fst].
  destruct (firstn (Z.to_nat string_length) (flat_map pack_H registers))
    as [|b bs]; [reflexivity|].
  destruct (Py.decode (filter (fun b => negb (b =? 0)) (b :: bs)));
    discriminate.
Qed.

(** Zero bytes are dropped wherever they stand and ASCII bytes decode to
    themselves. *)
Lemma read_string_strips_zero_bytes (c : ModbusTcpClient)
    (log : list request) (address count unit string_length : Z)
    (registers ascii_bytes : list Z) :
  answers c log address count unit registers ->
  forallb is_u16 registers = true ->
  firstn (Z.to_nat string_length) (flat_map pack_H registers) = ascii_bytes ->
  ascii_bytes <> [] ->
  Forall (fun b => 0 <= b < 0x80) ascii_bytes ->
  fst (__read_string c address count unit string_length log)
  = Ok (Some (filter (fun b => negb (b =? 0)) ascii_bytes)).
Proof.
  intros Hans Hregs Hbytes Hne Hascii.
  rewrite (read_string_value _ _ _ _ _ _ _ Hans Hregs), Hbytes. cbn [fst].
  destruct ascii_bytes as [|b bs]; [contradiction|].
  rewrite decode_ascii; [reflexivity|].
  apply Forall_forall. intros x Hx. apply filter_In in Hx as [Hx _].
  revert x Hx. apply Forall_forall. exact Hascii.
Qed.

Lemma read_string_embedded_zero_bytes :
  __read_string (register_bank [0x4142; 0x0000; 0x4344]) 0x7922 3 1 6 []
  = (Ok (Some (str_of_string "ABCD")), [ReadHoldingRegisters 0x7922 3 1]).
Proof. reflexivity. Qed.

(** C2.  Registers that are all zero do not read as absent: [tag_circuit]
    and [tag_name] return the empty string on them, because the test for
    absence compares the bytes, which are ints, with a [str]. *)
Theorem read_string_all_zero_is_not_absent :
  tag_circuit (mk (register_bank [0; 0; 0]) 247) 1 []
  = (Ok (Some []), [ReadHoldingRegisters 0x7922 3 1])
  /\ tag_name (mk (register_bank [0; 0; 0; 0; 0; 0; 0; 0; 0; 0]) 247) 1 []
     = (Ok (Some []), [ReadHoldingRegisters 0x7918 10 1]).
Proof. split; reflexivity. Qed.

(** ** Packed date-time *)

Lemma read_date_time_value (c : ModbusTcpClient) (log : list request)
    (address unit : Z) (year_raw day_month minute_hour second_millisecond : Z) :
  0 <= year_raw < 65536 -> 0 <= day_month < 65536 ->
  0 <= minute_hour < 65536 -> 0 <= second_millisecond < 65536 ->
  answers c log address 4 unit
    [year_raw; day_month; minute_hour; second_millisecond] ->
  __read_date_time c address unit log
  = (if (year_raw =? 0xFFFF) && (day_month =? 0xFFFF)
        && (minute_hour =? 0xFFFF) && (second_millisecond =? 0xFFFF)
     then Ok None
     else
       t <~ new_datetime
              (Z.land year_raw 0x7F + 2000)
              (Z.land (Z.shiftr day_month 8) 0x0F)
              (Z.land day_month 0x1F)
              (Z.land (Z.shiftr minute_hour 8) 0x1F)
              (Z.land minute_hour 0x3F)
              (second_millisecond / 1000)
              (second_millisecond - second_millisecond / 1000 * 1000) ;;
       Ok (Some t),
     log ++ [ReadHoldingRegisters address 4 unit]).
Proof.
  intros H0 H1 H2 H3 Hans. unfold __read_date_time, bind.
  rewrite (read_answered _ _ _ _ _ _ Hans). unfold lift. f_equal.
  assert (H : forallb is_u16
                [year_raw; day_month; minute_hour; second_millisecond] = true)
    by (cbn; rewrite (proj2 (is_u16_true _) H0), (proj2 (is_u16_true _) H1),
          (proj2 (is_u16_true _) H2), (proj2 (is_u16_true _) H3);
        reflexivity).
  unfold decoder, BinaryPayloadDecoder.fromRegisters. rewrite H.
  cbn [rbind flat_map].
  unfold BinaryPayloadDecoder.decode_16bit_uint,
    BinaryPayloadDecoder.decode_uint, BinaryPayloadDecoder.advance.
  unfold unpack_uint.
  cbn [BinaryPayloadDecoder.pointer BinaryPayloadDecoder.payload skipn
       pack_H app firstn Nat.add List.length Nat.eqb fold_left rbind].
  split_word year_raw. split_word day_month. split_word minute_hour.
  split_word second_millisecond.
  replace ((0 * 256 + year_raw / 256) * 256 + year_raw mod 256)
    with year_raw by lia.
  replace ((0 * 256 + day_month / 256) * 256 + day_month mod 256)
    with day_month by lia.
  replace ((0 * 256 + minute_hour / 256) * 256 + minute_hour mod 256)
    with minute_hour by lia.
  replace ((0 * 256 + second_millisecond / 256) * 256
           + second_millisecond mod 256)
    with second_millisecond by lia.
  reflexivity.
Qed.

Section DateTimeReads.
Variable c : ModbusTcpClient.
Variables (log : list request) (address unit : Z).

Lemma read_date_time_absent :
  answers c log address 4 unit [0xFFFF; 0xFFFF; 0xFFFF; 0xFFFF] ->
  __read_date_time c address unit log
  = (Ok None, log ++ [ReadHoldingRegisters address 4 unit]).
Proof.
  intros Hans.
  rewrite (read_date_time_value c log address unit 0xFFFF 0xFFFF 0xFFFF
             0xFFFF) by (lia || exact Hans).
  reflexivity.
Qed.

Variables year_raw day_month minute_hour second_millisecond : Z.
Hypothesis year_raw_u16 : 0 <= year_raw < 65536.
Hypothesis day_month_u16 : 0 <= day_month < 65536.
Hypothesis minute_hour_u16 : 0 <= minute_hour < 65536.
Hypothesis second_millisecond_u16 : 0 <= second_millisecond < 65536.
Hypothesis answered :
  answers c log address 4 unit
    [year_raw; day_month; minute_hour; second_millisecond].

(** The fields of a date-time that the read returns. *)
Lemma read_date_time_fields (t : datetime) :
  fst (__read_date_time c address unit log) = Ok (Some t) ->
  year t = Z.land year_raw 0x7F + 2000
  /\ month t = Z.land (Z.shiftr day_month 8) 0x0F
  /\ day t = Z.land day_month 0x1F
  /\ hour t = Z.land (Z.shiftr minute_hour 8) 0x1F
  /\ minute t = Z.land minute_hour 0x3F
  /\ second t = second_millisecond / 1000
  /\ microsecond t = second_millisecond mod 1000.
Proof.
  rewrite (read_date_time_value c log address unit year_raw day_month
             minute_hour second_millisecond) by assumption.
  cbn [fst].
  destruct ((year_raw =? 0xFFFF) && (day_month =? 0xFFFF)
            && (minute_hour =? 0xFFFF) && (second_millisecond =? 0xFFFF));
    [discriminate|].
  unfold new_datetime.
  match goal with |- context [if ?b then _ else _] => destruct b end;
    [|discriminate].
  cbn [rbind]. intros [= <-].
  cbn [year month day hour minute second microsecond].
  repeat split.
  pose proof (Z.div_mod second_millisecond 1000). lia.
Qed.

(** What the read returns carries no whole millisecond: the field
    [second_millisecond mod 1000] is stored as a count of microseconds. *)
Lemma read_date_time_millisecond_zero (t : datetime) :
  fst (__read_date_time c address unit log) = Ok (Some t) ->
  Py.millisecond t = 0.
Proof.
  intros H. apply read_date_time_fields in H.
  destruct H as (_ & _ & _ & _ & _ & _ & H).
  unfold Py.millisecond. rewrite H.
  pose proof (Z.mod_pos_bound second_millisecond 1000).
  apply Z.div_small. lia.
Qed.

(** A field out of calendar range is a [ValueError]. *)
Lemma read_date_time_month_out_of_range :
  second_millisecond <> 0xFFFF ->
  ~ 1 <= Z.land (Z.shiftr day_month 8) 0x0F <= 12 ->
  fst (__read_date_time c address unit log) = Raise ValueError.
Proof.
  intros Hs Hm.
  rewrite (read_date_time_value c log address unit year_raw day_month
             minute_hour second_millisecond) by assumption.
  cbn [fst].
  destruct (Z.eqb_spec second_millisecond 0xFFFF) as [E|_];
    [contradiction|].
  rewrite andb_false_r. unfold new_datetime.
  replace (within 1 12 (Z.land (Z.shiftr day_month 8) 0x0F)) with false.
  - rewrite andb_false_r. reflexivity.
  - symmetry. unfold within. apply andb_false_iff.
    rewrite Z.leb_gt, Z.leb_gt. lia.
Qed.
End DateTimeReads.

(** C3.  Decoding the words (24, 0x0105, 0x0A1E, 0x0E74) yields the year
    2024, month 1, day 5, hour 10, minute 30 and second 3, and the 700 of
    the last field becomes the microsecond of the date-time, whose
    millisecond is therefore 0 and not 700. *)
Theorem read_date_time_millisecond_is_microsecond :
  exists t,
    date_time (mk (register_bank [24; 0x0105; 0x0A1E; 0x0E74]) 247) []
    = (Ok (Some t), [ReadHoldingRegisters 0x0073 4 255])
    /\ year t = 2024 /\ month t = 1 /\ day t = 5
    /\ hour t = 10 /\ minute t = 30 /\ second t = 3
    /\ microsecond t = 700
    /\ Py.millisecond t = 0.
Proof. eexists. split; [reflexivity|]. repeat split. Qed.

(** ** Discovery of the synthesis table *)

Lemma range_down_nil (start stop : Z) :
  start <= stop -> range_down start stop = [].
Proof.
  intros H. unfold range_down.
  replace (Z.to_nat (start - stop)) with 0%nat by lia. reflexivity.
Qed.

Lemma range_down_cons (start stop : Z) :
  stop < start ->
  range_down start stop = start :: range_down (start - 1) stop.
Proof.
  intros H. unfold range_down.
  replace (Z.to_nat (start - stop))
    with (S (Z.to_nat (start - 1 - stop))) by lia.
  cbn [seq map]. f_equal; [lia|].
  rewrite <- seq_shift, map_map. apply map_ext. intros i. lia.
Qed.

Lemma range_down_length (start stop : Z) :
  List.length (range_down start stop) = Z.to_nat (start - stop).
Proof. unfold range_down. rewrite length_map, length_seq. reflexivity. Qed.


Section Discovery.
Variable c : ModbusTcpClient.

Lemma probe_refused (slave_id : Z) (rest : list Z) (log : list request) :
  unit_in_range slave_id = true ->
  refuses c slave_id ->
  probe c (slave_id :: rest) log
  = probe c rest (log ++ [probe_request slave_id]).
Proof.
  intros Hu Href. destruct (Href log) as [text Htext].
  cbn [probe]. unfold except_ConnectionError, bind at 1.
  unfold __read_int_16. rewrite assert_holds by exact Hu.
  unfold bind at 1, __read. rewrite Htext. reflexivity.
Qed.



End Discovery.

Lemma unit_in_range_candidates (u : Z) :
  1 <= u <= 247 -> unit_in_range u = true.
Proof.
  intros H. unfold unit_in_range. apply orb_true_iff. left.
  apply andb_true_iff. rewrite !Z.leb_le. exact H.
Qed.

Lemma range_down_snoc (start stop : Z) :
  stop <= start ->
  range_down start (stop - 1) = range_down start stop ++ [stop].
Proof.
  intros H. unfold range_down.
  replace (Z.to_nat (start - (stop - 1)))
    with (S (Z.to_nat (start - stop))) by lia.
  rewrite seq_S, map_app. cbn [map Nat.add]. do 2 f_equal. lia.
Qed.

Lemma probe_skips_refused (c : ModbusTcpClient) (n : nat) :
  forall (start slave_id : Z) (log : list request),
    Z.of_nat n = start - slave_id ->
    1 <= slave_id -> start <= 247 ->
    (forall u, slave_id < u <= start -> refuses c u) ->
    probe c (range_down start 1) log
    = probe c (range_down slave_id 1)
        (log ++ map probe_request (range_down start slave_id)).
Proof.
  induction n as [|n IH]; intros start slave_id log Hn Hk Hmax Href.
  - assert (start = slave_id) as -> by lia.
    rewrite (range_down_nil slave_id slave_id) by lia.
    cbn [map]. rewrite app_nil_r. reflexivity.
  - rewrite (range_down_cons start 1) by lia.
    rewrite (range_down_cons start slave_id) by lia.
    rewrite probe_refused
      by (apply unit_in_range_candidates; lia) || (apply Href; lia).
    rewrite (IH (start - 1) slave_id)
      by (lia || (intros u Hu; apply Href; lia)).
    cbn [map]. rewrite <- app_assoc. reflexivity.
Qed.




(** * Further properties of the module *)

(** ** What a read does with the response it gets *)

Lemma forallb_u16_true (ws : list Z) :
  forallb is_u16 ws = true <-> Forall (fun w => 0 <= w < 65536) ws.
Proof.
  rewrite forallb_forall, Forall_forall.
  split; intros H w Hw; apply is_u16_true, H, Hw.
Qed.

Lemma payload_length (registers : list Z) :
  List.length (flat_map pack_H registers) = (2 * List.length registers)%nat.
Proof.
  induction registers as [|w ws IH]; [reflexivity|].
  cbn [flat_map pack_H app List.length]. rewrite IH. lia.
Qed.

(** Decoding [size] bytes out of fewer registers is a [struct.error],
    whether or not the registers can be packed. *)
Lemma decode_uint_short (size : nat) (registers : list Z) :
  (2 * List.length registers < size)%nat ->
  (d <~ decoder registers ;; BinaryPayloadDecoder.decode_uint size d)
  = Raise StructError.
Proof.
  intros Hlen. unfold decoder, BinaryPayloadDecoder.fromRegisters.
  destruct (forallb is_u16 registers); [|reflexivity].
  cbn [rbind]. unfold BinaryPayloadDecoder.decode_uint,
    BinaryPayloadDecoder.advance, unpack_uint.
  cbn [BinaryPayloadDecoder.pointer BinaryPayloadDecoder.payload skipn].
  destruct (Nat.eqb_spec
              (List.length (firstn size (flat_map pack_H registers))) size)
    as [E|_]; [|reflexivity].
  rewrite length_firstn, payload_length in E. lia.
Qed.

Lemma rbind_assoc_raise {A B C} (r : result A) (f : A -> result B)
    (g : B -> result C) (e : exn) :
  rbind r f = Raise e -> rbind r (fun a => rbind (f a) g) = Raise e.
Proof.
  destruct r as [a|e']; cbn [rbind].
  - intros ->. reflexivity.
  - intros [= ->]. reflexivity.
Qed.

Section ShortResponses.
Variable c : ModbusTcpClient.
Variables (log : list request) (address unit : Z).
Variable registers : list Z.
Hypothesis unit_ok : unit_in_range unit = true.

Lemma read_int_16_short :
  answers c log address 1 unit registers ->
  (List.length registers < 1)%nat ->
  __read_int_16 c address unit log
  = (Raise StructError, log ++ [ReadHoldingRegisters address 1 unit]).
Proof.
  intros Hans Hlen. unfold __read_int_16. run_read unit_ok Hans.
  apply rbind_assoc_raise with (f := BinaryPayloadDecoder.decode_uint 2).
  apply decode_uint_short. lia.
Qed.

Lemma read_int_32_short :
  answers c log address 2 unit registers ->
  (List.length registers < 2)%nat ->
  __read_int_32 c address unit log
  = (Raise StructError, log ++ [ReadHoldingRegisters address 2 unit]).
Proof.
  intros Hans Hlen. unfold __read_int_32. run_read unit_ok Hans.
  apply rbind_assoc_raise with (f := BinaryPayloadDecoder.decode_uint 4).
  apply decode_uint_short. lia.
Qed.

Lemma read_int_64_short :
  answers c log address 4 unit registers ->
  (List.length registers < 4)%nat ->
  __read_int_64 c address unit log
  = (Raise StructError, log ++ [ReadHoldingRegisters address 4 unit]).
Proof.
  intros Hans Hlen. unfold __read_int_64. run_read unit_ok Hans.
  apply rbind_assoc_raise with (f := BinaryPayloadDecoder.decode_uint 8).
  apply decode_uint_short. lia.
Qed.

Lemma read_float_32_short :
  answers c log address 2 unit registers ->
  (List.length registers < 2)%nat ->
  __read_float_32 c address unit log
  = (Raise StructError, log ++ [ReadHoldingRegisters address 2 unit]).
Proof.
  intros Hans Hlen. unfold __read_float_32. run_read unit_ok Hans.
  apply rbind_assoc_raise with (f := BinaryPayloadDecoder.decode_uint 4).
  apply decode_uint_short. lia.
Qed.
End ShortResponses.

(** X1.  With a unit in range, a read that is answered with fewer registers
    than its type needs (1 for the 16-bit integer, 2 for the 32-bit integer
    and the float, 4 for the 64-bit integer) raises [struct.error]. *)
Theorem short_response_is_struct_error
    (c : ModbusTcpClient) (log : list request) (address unit : Z)
    (registers : list Z) :
  unit_in_range unit = true ->
  (answers c log address 1 unit registers ->
   (List.length registers < 1)%nat ->
   fst (__read_int_16 c address unit log) = Raise StructError)
  /\ (answers c log address 2 unit registers ->
      (List.length registers < 2)%nat ->
      fst (__read_int_32 c address unit log) = Raise StructError
      /\ fst (__read_float_32 c address unit log) = Raise StructError)
  /\ (answers c log address 4 unit registers ->
      (List.length registers < 4)%nat ->
      fst (__read_int_64 c address unit log) = Raise StructError).
Proof.
  intros Hu. split; [|split].
  - intros Hans Hlen.
    rewrite (read_int_16_short c log address unit registers Hu Hans Hlen).
    reflexivity.
  - intros Hans Hlen.
    rewrite (read_int_32_short c log address unit registers Hu Hans Hlen),
      (read_float_32_short c log address unit registers Hu Hans Hlen).
    split; reflexivity.
  - intros Hans Hlen.
    rewrite (read_int_64_short c log address unit registers Hu Hans Hlen).
    reflexivity.
Qed.

Lemma short_response_is_struct_error_witness :
  fst (__read_int_16 (register_bank []) 0x7929 1 []) = Raise StructError
  /\ fst (__read_int_32 (register_bank [7]) 0xCEB 1 []) = Raise StructError
  /\ fst (__read_float_32 (register_bank [7]) 0xCEB 1 []) = Raise StructError
  /\ fst (__read_int_64 (register_bank [1; 2; 3]) 0xC83 1 [])
     = Raise StructError.
Proof.
  split; [|split; [|split]].
  - apply (proj1 (short_response_is_struct_error
                    (register_bank []) [] 0x7929 1 [] eq_refl));
      [reflexivity | cbn; lia].
  - apply (proj1 (proj2 (short_response_is_struct_error
                    (register_bank [7]) [] 0xCEB 1 [7] eq_refl)));
      [reflexivity | cbn; lia].
  - apply (proj1 (proj2 (short_response_is_struct_error
                    (register_bank [7]) [] 0xCEB 1 [7] eq_refl)));
      [reflexivity | cbn; lia].
  - apply (proj2 (proj2 (short_response_is_struct_error
                    (register_bank [1; 2; 3]) [] 0xC83 1 [1; 2; 3] eq_refl)));
      [reflexivity | cbn; lia].
Defined.

(** ** Floats *)

(** [math.isnan] on the bit pattern, in arithmetic: the pattern without its
    sign bit is above that of infinity. *)
Lemma isnan_spec (bits : Z) :
  0 <= bits < 0x100000000 ->
  isnan bits = (0x7F800000 <? bits mod 0x80000000).
Proof.
  intros Hb. unfold isnan.
  rewrite Z.shiftr_div_pow2 by lia.
  change 0xFF with (Z.ones 8). change 0x7FFFFF with (Z.ones 23).
  rewrite !Z.land_ones by lia.
  change (2 ^ 23) with 8388608. change (2 ^ 8) with 256.
  change (Z.ones 8) with 255.
  pose proof (Z.div_mod bits 8388608).
  pose proof (Z.mod_pos_bound bits 8388608).
  pose proof (Z.div_mod (bits / 8388608) 256).
  pose proof (Z.mod_pos_bound (bits / 8388608) 256).
  pose proof (Z.div_mod bits 0x80000000).
  pose proof (Z.mod_pos_bound bits 0x80000000).
  destruct (Z.eqb_spec (bits / 8388608 mod 256) 255);
    destruct (Z.eqb_spec (bits mod 8388608) 0);
    destruct (Z.ltb_spec 0x7F800000 (bits mod 0x80000000));
    cbn [andb negb]; try reflexivity; exfalso; lia.
Qed.

Section FirstWords.
Variable c : ModbusTcpClient.
Variables (log : list request) (address unit : Z).
Hypothesis unit_ok : unit_in_range unit = true.

Lemma read_int_32_first_words (w0 w1 : Z) (rest : list Z) :
  forallb is_u16 (w0 :: w1 :: rest) = true ->
  answers c log address 2 unit (w0 :: w1 :: rest) ->
  __read_int_32 c address unit log
  = (Ok (let v := w0 * 65536 + w1 in
         if v =? 0x80000000 then None else Some v),
     log ++ [ReadHoldingRegisters address 2 unit]).
Proof.
  intros H Hans. unfold __read_int_32. run_read unit_ok Hans.
  destruct (forallb_u16_cons _ _ H) as [H0 H'].
  destruct (forallb_u16_cons _ _ H') as [H1 _].
  unpack_words. split_word w0. split_word w1.
  match goal with |- context [negb (?x =? _)] =>
    replace x with (w0 * 65536 + w1) by lia end.
  cbv zeta. destruct (w0 * 65536 + w1 =? 0x80000000); reflexivity.
Qed.

Lemma read_float_32_first_words (w0 w1 : Z) (rest : list Z) :
  forallb is_u16 (w0 :: w1 :: rest) = true ->
  answers c log address 2 unit (w0 :: w1 :: rest) ->
  __read_float_32 c address unit log
  = (Ok (let bits := w0 * 65536 + w1 in
         if isnan bits then None else Some bits),
     log ++ [ReadHoldingRegisters address 2 unit]).
Proof.
  intros H Hans. unfold __read_float_32. run_read unit_ok Hans.
  destruct (forallb_u16_cons _ _ H) as [H0 H'].
  destruct (forallb_u16_cons _ _ H') as [H1 _].
  unfold BinaryPayloadDecoder.decode_32bit_float.
  unpack_words. split_word w0. split_word w1.
  match goal with |- context [isnan ?x] =>
    replace x with (w0 * 65536 + w1) by lia end.
  cbv zeta. destruct (isnan (w0 * 65536 + w1)); reflexivity.
Qed.

Lemma read_int_64_first_words (w0 w1 w2 w3 : Z) (rest : list Z) :
  forallb is_u16 (w0 :: w1 :: w2 :: w3 :: rest) = true ->
  answers c log address 4 unit (w0 :: w1 :: w2 :: w3 :: rest) ->
  __read_int_64 c address unit log
  = (Ok (let v := ((w0 * 65536 + w1) * 65536 + w2) * 65536 + w3 in
         if v =? 0x8000000000000000 then None else Some v),
     log ++ [ReadHoldingRegisters address 4 unit]).
Proof.
  intros H Hans. unfold __read_int_64. run_read unit_ok Hans.
  destruct (forallb_u16_cons _ _ H) as [H0 H'].
  destruct (forallb_u16_cons _ _ H') as [H1 H''].
  destruct (forallb_u16_cons _ _ H'') as [H2 H'''].
  destruct (forallb_u16_cons _ _ H''') as [H3 _].
  unpack_words. split_word w0. split_word w1. split_word w2. split_word w3.
  match goal with |- context [negb (?x =? _)] =>
    replace x with (((w0 * 65536 + w1) * 65536 + w2) * 65536 + w3) by lia
  end.
  cbv zeta.
  destruct (((w0 * 65536 + w1) * 65536 + w2) * 65536 + w3
            =? 0x8000000000000000); reflexivity.
Qed.
End FirstWords.

(** X2.  With a unit in range, the float read answered with two 16-bit
    words returns the bit pattern made of the words, most significant word
    first, and is absent exactly when that pattern is a NaN: when, its sign
    bit left out, it is above 0x7F80_0000.  The two infinities are
    values. *)
Theorem read_float_32_absent_exactly_on_nan
    (c : ModbusTcpClient) (log : list request) (address unit w0 w1 : Z) :
  unit_in_range unit = true ->
  0 <= w0 < 65536 -> 0 <= w1 < 65536 ->
  answers c log address 2 unit [w0; w1] ->
  __read_float_32 c address unit log
  = (Ok (let bits := w0 * 0x10000 + w1 in
         if 0x7F800000 <? bits mod 0x80000000 then None else Some bits),
     log ++ [ReadHoldingRegisters address 2 unit]).
Proof.
  intros Hu H0 H1 Hans.
  rewrite (read_float_32_first_words c log address unit Hu w0 w1 [])
    by (exact Hans
        || (cbn; rewrite (proj2 (is_u16_true w0) H0),
              (proj2 (is_u16_true w1) H1); reflexivity)).
  cbv zeta. rewrite isnan_spec by lia. reflexivity.
Qed.

Lemma read_float_32_absent_exactly_on_nan_witness :
  fst (__read_float_32 (register_bank [0x7F80; 0]) 0xBB7 1 [])
  = Ok (Some 0x7F800000)
  /\ fst (__read_float_32 (register_bank [0xFF80; 0]) 0xBB7 1 [])
     = Ok (Some 0xFF800000)
  /\ fst (__read_float_32 (register_bank [0x7FC0; 0]) 0xBB7 1 []) = Ok None
  /\ fst (__read_float_32 (register_bank [0xFF80; 1]) 0xBB7 1 []) = Ok None.
Proof.
  split; [|split; [|split]].
  - rewrite (read_float_32_absent_exactly_on_nan
               (register_bank [0x7F80; 0]) [] 0xBB7 1 0x7F80 0)
      by (reflexivity || lia).
    reflexivity.
  - rewrite (read_float_32_absent_exactly_on_nan
               (register_bank [0xFF80; 0]) [] 0xBB7 1 0xFF80 0)
      by (reflexivity || lia).
    reflexivity.
  - rewrite (read_float_32_absent_exactly_on_nan
               (register_bank [0x7FC0; 0]) [] 0xBB7 1 0x7FC0 0)
      by (reflexivity || lia).
    reflexivity.
  - rewrite (read_float_32_absent_exactly_on_nan
               (register_bank [0xFF80; 1]) [] 0xBB7 1 0xFF80 1)
      by (reflexivity || lia).
    reflexivity.
Defined.

(** X3.  With a unit in range, the unsigned reads decode the first 1, 2 or
    4 registers of the response and ignore the registers after them. *)
Theorem surplus_registers_are_ignored
    (c : ModbusTcpClient) (log : list request) (address unit : Z)
    (w0 w1 w2 w3 : Z) (rest : list Z) :
  unit_in_range unit = true ->
  forallb is_u16 (w0 :: w1 :: w2 :: w3 :: rest) = true ->
  (answers c log address 1 unit (w0 :: rest) ->
   fst (__read_int_16 c address unit log)
   = Ok (if w0 =? 0xFFFF then None else Some w0))
  /\ (answers c log address 2 unit (w0 :: w1 :: rest) ->
      fst (__read_int_32 c address unit log)
      = Ok (let v := w0 * 0x10000 + w1 in
            if v =? 0x80000000 then None else Some v))
  /\ (answers c log address 4 unit (w0 :: w1 :: w2 :: w3 :: rest) ->
      fst (__read_int_64 c address unit log)
      = Ok (let v := w0 * 0x1000000000000 + w1 * 0x100000000
                     + w2 * 0x10000 + w3 in
            if v =? 0x8000000000000000 then None else Some v)).
Proof.
  intros Hu H.
  destruct (forallb_u16_cons _ _ H) as [H0 H'].
  destruct (forallb_u16_cons _ _ H') as [H1 H''].
  destruct (forallb_u16_cons _ _ H'') as [H2 H'''].
  destruct (forallb_u16_cons _ _ H''') as [H3 Hrest].
  apply is_u16_true in H0, H1, H2, H3.
  split; [|split]; intros Hans.
  - rewrite (read_int_16_first_word c log address unit Hu w0 rest)
      by (exact Hans || (cbn [forallb]; rewrite H0, Hrest; reflexivity)).
    reflexivity.
  - rewrite (read_int_32_first_words c log address unit Hu w0 w1 rest)
      by (exact Hans || (cbn [forallb]; rewrite H0, H1, Hrest; reflexivity)).
    reflexivity.
  - rewrite (read_int_64_first_words c log address unit Hu w0 w1 w2 w3 rest)
      by (exact Hans || exact H).
    cbn [fst]. f_equal.
    replace (w0 * 0x1000000000000 + w1 * 0x100000000 + w2 * 0x10000 + w3)
      with (((w0 * 65536 + w1) * 65536 + w2) * 65536 + w3) by lia.
    reflexivity.
Qed.

Lemma surplus_registers_are_ignored_witness :
  let c := fixed_response [0x0001; 0x0002; 0x0003; 0x0004; 0x0005; 0x0006] in
  fst (__read_int_16 c 0 1 []) = Ok (Some 1)
  /\ fst (__read_int_32 c 0 1 []) = Ok (Some 0x00010002)
  /\ fst (__read_int_64 c 0 1 []) = Ok (Some 0x0001000200030004).
Proof.
  intros c. split; [|split].
  - pose proof (surplus_registers_are_ignored c [] 0 1 1 0 0 0
                  [2; 3; 4; 5; 6] eq_refl eq_refl) as (H & _ & _).
    apply H. reflexivity.
  - pose proof (surplus_registers_are_ignored c [] 0 1 1 2 0 0
                  [3; 4; 5; 6] eq_refl eq_refl) as (_ & H & _).
    apply H. reflexivity.
  - pose proof (surplus_registers_are_ignored c [] 0 1 1 2 3 4
                  [5; 6] eq_refl eq_refl) as (_ & _ & H).
    apply H. reflexivity.
Defined.

(** ** Requests and transport failures *)

Lemma read_refused (c : ModbusTcpClient) (log : list request)
    (address count unit : Z) (text : str) :
  read_holding_registers c log address count unit = ExceptionResponse text ->
  __read c address count unit log
  = (Raise (ConnectionError text),
     log ++ [ReadHoldingRegisters address count unit]).
Proof. unfold __read. intros ->. reflexivity. Qed.

(** X4.  When the client answers the request with an exception response,
    every read raises a [ConnectionError] that carries the text of the
    response, after the one request has been issued: the string and
    date-time reads for every unit, the others for a unit in range. *)
Theorem exception_response_is_connection_error
    (c : ModbusTcpClient) (log : list request) (address unit : Z)
    (text : str) :
  (forall count string_length,
      read_holding_registers c log address count unit
      = ExceptionResponse text ->
      __read_string c address count unit string_length log
      = (Raise (ConnectionError text),
         log ++ [ReadHoldingRegisters address count unit]))
  /\ (read_holding_registers c log address 4 unit = ExceptionResponse text ->
      __read_date_time c address unit log
      = (Raise (ConnectionError text),
         log ++ [ReadHoldingRegisters address 4 unit])
      /\ (unit_in_range unit = true ->
          __read_int_64 c address unit log
          = (Raise (ConnectionError text),
             log ++ [ReadHoldingRegisters address 4 unit])))
  /\ (read_holding_registers c log address 2 unit = ExceptionResponse text ->
      unit_in_range unit = true ->
      __read_int_32 c address unit log
      = (Raise (ConnectionError text),
         log ++ [ReadHoldingRegisters address 2 unit])
      /\ __read_float_32 c address unit log
         = (Raise (ConnectionError text),
            log ++ [ReadHoldingRegisters address 2 unit]))
  /\ (read_holding_registers c log address 1 unit = ExceptionResponse text ->
      unit_in_range unit = true ->
      __read_int_16 c address unit log
      = (Raise (ConnectionError text),
         log ++ [ReadHoldingRegisters address 1 unit])).
Proof.
  split; [|split; [|split]].
  - intros count string_length Hresp. unfold __read_string, bind.
    rewrite (read_refused _ _ _ _ _ _ Hresp). reflexivity.
  - intros Hresp. split.
    + unfold __read_date_time, bind.
      rewrite (read_refused _ _ _ _ _ _ Hresp). reflexivity.
    + intros Hu. unfold __read_int_64. rewrite assert_holds by exact Hu.
      unfold bind. rewrite (read_refused _ _ _ _ _ _ Hresp). reflexivity.
  - intros Hresp Hu. unfold __read_int_32, __read_float_32.
    rewrite !assert_holds by exact Hu.
    unfold bind. rewrite (read_refused _ _ _ _ _ _ Hresp).
    split; reflexivity.
  - intros Hresp Hu. unfold __read_int_16. rewrite assert_holds by exact Hu.
    unfold bind. rewrite (read_refused _ _ _ _ _ _ Hresp). reflexivity.
Qed.

Lemma exception_response_is_connection_error_witness :
  let text := str_of_string "Exception Response" in
  tag_name (mk silent_gateway 247) 1 []
  = (Raise (ConnectionError text), [ReadHoldingRegisters 0x7918 10 1])
  /\ tag_rated_current (mk silent_gateway 247) 1 []
     = (Raise (ConnectionError text), [ReadHoldingRegisters 0x7929 1 1]).
Proof.
  intros text. split.
  - apply (proj1 (exception_response_is_connection_error
                    silent_gateway [] 0x7918 1 text) 10 20 eq_refl).
  - apply (proj2 (proj2 (proj2 (exception_response_is_connection_error
                    silent_gateway [] 0x7929 1 text))) eq_refl eq_refl).
Defined.

(** X5.  With a unit in range, each of the integer and float reads issues
    exactly one request, for 1, 2, 2 and 4 registers, whatever the client
    answers and whatever the read returns or raises. *)
Theorem checked_reads_issue_one_request
    (c : ModbusTcpClient) (log : list request) (address unit : Z) :
  unit_in_range unit = true ->
  snd (__read_int_16 c address unit log)
  = log ++ [ReadHoldingRegisters address 1 unit]
  /\ snd (__read_int_32 c address unit log)
     = log ++ [ReadHoldingRegisters address 2 unit]
  /\ snd (__read_float_32 c address unit log)
     = log ++ [ReadHoldingRegisters address 2 unit]
  /\ snd (__read_int_64 c address unit log)
     = log ++ [ReadHoldingRegisters address 4 unit].
Proof.
  intros Hu.
  unfold __read_int_16, __read_int_32, __read_float_32, __read_int_64.
  rewrite !assert_holds by exact Hu.
  split; [|split; [|split]]; apply bind_read_logs.
Qed.

Lemma checked_reads_issue_one_request_witness :
  snd (__read_int_16 silent_gateway 0x7929 5 [])
  = [ReadHoldingRegisters 0x7929 1 5]
  /\ snd (__read_int_32 silent_gateway 0x7929 5 [])
     = [ReadHoldingRegisters 0x7929 2 5]
  /\ snd (__read_float_32 silent_gateway 0x7929 5 [])
     = [ReadHoldingRegisters 0x7929 2 5]
  /\ snd (__read_int_64 silent_gateway 0x7929 5 [])
     = [ReadHoldingRegisters 0x7929 4 5].
Proof.
  apply (checked_reads_issue_one_request silent_gateway [] 0x7929 5).
  reflexivity.
Defined.

(** X6.  With a unit that is neither in 1..247 nor 255, the integer and
    float reads and the integer write raise [AssertionError] and issue no
    request. *)
Theorem out_of_range_unit_issues_nothing
    (c : ModbusTcpClient) (log : list request) (address unit value : Z) :
  ~ (1 <= unit <= 247 \/ unit = 255) ->
  __read_int_16 c address unit log = (Raise AssertionError, log)
  /\ __read_int_32 c address unit log = (Raise AssertionError, log)
  /\ __read_int_64 c address unit log = (Raise AssertionError, log)
  /\ __read_float_32 c address unit log = (Raise AssertionError, log)
  /\ __write_int_16 c address unit value log = (Raise AssertionError, log).
Proof.
  intros Hu. apply checked_operations_refuse_unit.
  unfold unit_in_range. apply orb_false_iff. split.
  - apply andb_false_iff. rewrite !Z.leb_gt. lia.
  - apply Z.eqb_neq. lia.
Qed.

Lemma out_of_range_unit_issues_nothing_witness :
  __read_int_16 (register_bank [7]) 0x7929 0 [] = (Raise AssertionError, [])
  /\ __read_int_32 (register_bank [7]) 0x7929 0 []
     = (Raise AssertionError, [])
  /\ __read_int_64 (register_bank [7]) 0x7929 0 []
     = (Raise AssertionError, [])
  /\ __read_float_32 (register_bank [7]) 0x7929 0 []
     = (Raise AssertionError, [])
  /\ __write_int_16 (register_bank [7]) 0x7929 0 1 []
     = (Raise AssertionError, []).
Proof.
  apply (out_of_range_unit_issues_nothing (register_bank [7]) [] 0x7929 0 1).
  lia.
Defined.

(** X7.  With a unit in range, writing a value that does not fit 16 bits
    raises [struct.error] and issues no request. *)
Theorem write_int_16_out_of_range_value
    (c : ModbusTcpClient) (log : list request) (address unit value : Z) :
  unit_in_range unit = true ->
  ~ 0 <= value < 65536 ->
  __write_int_16 c address unit value log = (Raise StructError, log).
Proof.
  intros Hu Hv. unfold __write_int_16. rewrite assert_holds by exact Hu.
  unfold bind, lift, BinaryPayloadBuilder.add_16bit_uint.
  replace (is_u16 value) with false; [reflexivity|].
  symmetry. unfold is_u16. apply andb_false_iff.
  rewrite Z.leb_gt, Z.ltb_ge. lia.
Qed.

Lemma write_int_16_out_of_range_value_witness :
  __write_int_16 (register_bank []) 0x792E 1 65536 []
  = (Raise StructError, []).
Proof.
  apply (write_int_16_out_of_range_value (register_bank []) [] 0x792E 1 65536).
  - reflexivity.
  - lia.
Defined.

(** ** Enumerations *)

Lemma value_eqb_eq (a b : option Z) : value_eqb a b = true <-> a = b.
Proof.
  destruct a as [x|], b as [y|]; cbn [value_eqb];
    [rewrite Z.eqb_eq | | | ]; split; congruence.
Qed.

Lemma enum_call_sound {E : Type} (members : list E) (value : E -> option Z)
    (v : option Z) (m : E) :
  enum_call members value v = Ok m -> In m members /\ value m = v.
Proof.
  unfold enum_call.
  destruct (find (fun m => value_eqb (value m) v) members) as [m'|] eqn:F;
    [|discriminate].
  intros [= <-]. apply find_some in F as [Hin Heq].
  split; [exact Hin | apply value_eqb_eq, Heq].
Qed.

Lemma enum_call_raises {E : Type} (members : list E) (value : E -> option Z)
    (v : option Z) (e : exn) :
  enum_call members value v = Raise e ->
  e = ValueError /\ forall m, In m members -> value m <> v.
Proof.
  unfold enum_call.
  destruct (find (fun m => value_eqb (value m) v) members) as [m'|] eqn:F;
    [discriminate|].
  intros [= <-]. split; [reflexivity|].
  intros m Hin Heq. pose proof (find_none _ _ F m Hin) as H.
  cbv beta in H. apply value_eqb_eq in Heq. congruence.
Qed.

Lemma enum_call_raises_iff {E : Type} (members : list E)
    (value : E -> option Z) (v : option Z) :
  (forall m, enum_call members value v = Ok m <-> value m = v) ->
  (enum_call members value v = Raise ValueError
   <-> forall m, value m <> v).
Proof.
  intros Hiff. split.
  - intros H m Hm. apply Hiff in Hm. rewrite H in Hm. discriminate Hm.
  - intros Hno. destruct (enum_call members value v) as [m|e] eqn:E'.
    + exfalso. apply (Hno m), Hiff. reflexivity.
    + apply enum_call_raises in E' as [-> _]. reflexivity.
Qed.

Ltac by_members :=
  let v := fresh "v" in
  let m := fresh "m" in
  intros v m;
  (split; [let H := fresh in intros H; apply enum_call_sound in H; apply H|]);
  intros <-; destruct m; reflexivity.

Lemma PanelserverStatus_call_iff (v : option Z) (m : PanelserverStatus.t) :
  PanelserverStatus.call v = Ok m <-> PanelserverStatus.value m = v.
Proof. revert v m. by_members. Qed.

Lemma DeviceUsage_call_iff (v : option Z) (m : DeviceUsage.t) :
  DeviceUsage.call v = Ok m <-> DeviceUsage.value m = v.
Proof. revert v m. by_members. Qed.

Lemma PhaseSequence_call_iff (v : option Z) (m : PhaseSequence.t) :
  PhaseSequence.call v = Ok m <-> PhaseSequence.value m = v.
Proof. revert v m. by_members. Qed.

Lemma Position_call_iff (v : option Z) (m : Position.t) :
  Position.call v = Ok m <-> Position.value m = v.
Proof. revert v m. by_members. Qed.

(** X8.  In each of the four closed enumerations, looking a value up
    returns a member exactly when that member has this value: every member
    is found by its value, and no other member is returned for it. *)
Theorem closed_enums_lookup_by_value :
  (forall v m,
      PanelserverStatus.call v = Ok m <-> PanelserverStatus.value m = v)
  /\ (forall v m, DeviceUsage.call v = Ok m <-> DeviceUsage.value m = v)
  /\ (forall v m, PhaseSequence.call v = Ok m <-> PhaseSequence.value m = v)
  /\ (forall v m, Position.call v = Ok m <-> Position.value m = v).
Proof.
  split; [|split; [|split]].
  - exact PanelserverStatus_call_iff.
  - exact DeviceUsage_call_iff.
  - exact PhaseSequence_call_iff.
  - exact Position_call_iff.
Qed.

(** An accessor that reads one word and looks it up in an enumeration. *)
Lemma enum_accessor_run {E : Type} (members : list E) (value : E -> option Z)
    (c : ModbusTcpClient) (log : list request) (address unit w : Z) :
  unit_in_range unit = true ->
  0 <= w < 65536 ->
  answers c log address 1 unit [w] ->
  (v <- __read_int_16 c address unit ;; lift (enum_call members value v)) log
  = (enum_call members value (if w =? 0xFFFF then None else Some w),
     log ++ [ReadHoldingRegisters address 1 unit]).
Proof.
  intros Hu Hw Hans. unfold bind.
  rewrite (read_int_16_value c log address unit Hu w Hw Hans). reflexivity.
Qed.

(** X9.  With a tag index in range and a 16-bit register word [w],
    [tag_usage], [tag_phase_sequence] and [tag_position] return the member
    whose value is [w], or [None] when [w] is 0xFFFF, and raise a
    [ValueError] exactly when no member has that value. *)
Theorem closed_enum_accessors
    (self : SchneiderModbus.t) (log : list request)
    (power_tag_index w : Z) :
  unit_in_range power_tag_index = true ->
  0 <= w < 65536 ->
  let v := if w =? 0xFFFF then None else Some w in
  (answers (client self) log 0x7925 1 power_tag_index [w] ->
   (forall m, fst (tag_usage self power_tag_index log) = Ok m
              <-> DeviceUsage.value m = v)
   /\ (fst (tag_usage self power_tag_index log) = Raise ValueError
       <-> forall m, DeviceUsage.value m <> v))
  /\ (answers (client self) log 0x7926 1 power_tag_index [w] ->
      (forall m, fst (tag_phase_sequence self power_tag_index log) = Ok m
                 <-> PhaseSequence.value m = v)
      /\ (fst (tag_phase_sequence self power_tag_index log)
          = Raise ValueError
          <-> forall m, PhaseSequence.value m <> v))
  /\ (answers (client self) log 0x7927 1 power_tag_index [w] ->
      (forall m, fst (tag_position self power_tag_index log) = Ok m
                 <-> Position.value m = v)
      /\ (fst (tag_position self power_tag_index log) = Raise ValueError
          <-> forall m, Position.value m <> v)).
Proof.
  intros Hu Hw v. split; [|split]; intros Hans.
  - unfold tag_usage, DeviceUsage.call.
    rewrite (enum_accessor_run _ _ _ _ _ _ w Hu Hw Hans). cbn [fst].
    split; [intros m; apply DeviceUsage_call_iff|].
    apply enum_call_raises_iff. intros m. apply DeviceUsage_call_iff.
  - unfold tag_phase_sequence, PhaseSequence.call.
    rewrite (enum_accessor_run _ _ _ _ _ _ w Hu Hw Hans). cbn [fst].
    split; [intros m; apply PhaseSequence_call_iff|].
    apply enum_call_raises_iff. intros m. apply PhaseSequence_call_iff.
  - unfold tag_position, Position.call.
    rewrite (enum_accessor_run _ _ _ _ _ _ w Hu Hw Hans). cbn [fst].
    split; [intros m; apply Position_call_iff|].
    apply enum_call_raises_iff. intros m. apply Position_call_iff.
Qed.

Lemma closed_enum_accessors_witness :
  fst (tag_usage (mk (register_bank [7]) 247) 1 []) = Ok DeviceUsage.lighting
  /\ fst (tag_phase_sequence (mk (register_bank [0xFFFF]) 247) 1 [])
     = Ok PhaseSequence.INVALID
  /\ fst (tag_position (mk (register_bank [4]) 247) 1 []) = Raise ValueError.
Proof.
  split; [|split].
  - pose proof (closed_enum_accessors (mk (register_bank [7]) 247) [] 1 7
                  eq_refl ltac:(lia)) as H.
    cbv zeta in H. destruct H as (H & _ & _).
    destruct (H eq_refl) as [Hm _]. apply Hm. reflexivity.
  - pose proof (closed_enum_accessors (mk (register_bank [0xFFFF]) 247) [] 1
                  0xFFFF eq_refl ltac:(lia)) as H.
    cbv zeta in H. destruct H as (_ & H & _).
    destruct (H eq_refl) as [Hm _]. apply Hm. reflexivity.
  - pose proof (closed_enum_accessors (mk (register_bank [4]) 247) [] 1 4
                  eq_refl ltac:(lia)) as H.
    cbv zeta in H. destruct H as (_ & _ & H).
    destruct (H eq_refl) as [_ He]. apply He.
    intros m. destruct m; discriminate.
Defined.

(** X10.  [status] reads one register at 0x009E of unit 255 and returns
    [Nominal], [Degraded] or [Outoforder] for 0, 1 or 2; every other word,
    the reserved pattern 0xFFFF included, raises a [ValueError]. *)
Theorem status_decodes_three_codes
    (self : SchneiderModbus.t) (log : list request) (w : Z) :
  0 <= w < 65536 ->
  answers (client self) log 0x009E 1 255 [w] ->
  status self log
  = (if w =? 0 then Ok PanelserverStatus.Nominal
     else if w =? 1 then Ok PanelserverStatus.Degraded
     else if w =? 2 then Ok PanelserverStatus.Outoforder
     else Raise ValueError,
     log ++ [ReadHoldingRegisters 0x009E 1 255]).
Proof.
  intros Hw Hans. unfold status, PanelserverStatus.call, POWERTAG_LINK_SLAVE_ID.
  rewrite (enum_accessor_run _ _ (client self) log 0x009E 255 w eq_refl Hw
             Hans).
  f_equal.
  destruct (Z.eqb_spec w 0xFFFF) as [->|Hs]; [reflexivity|].
  unfold enum_call, PanelserverStatus.members.
  cbn [find PanelserverStatus.value value_eqb].
  rewrite (Z.eqb_sym 0 w), (Z.eqb_sym 1 w), (Z.eqb_sym 2 w).
  destruct (w =? 0); [reflexivity|].
  destruct (w =? 1); [reflexivity|].
  destruct (w =? 2); reflexivity.
Qed.

Lemma status_decodes_three_codes_witness :
  status (mk (register_bank [1]) 247) []
  = (Ok PanelserverStatus.Degraded, [ReadHoldingRegisters 0x009E 1 255])
  /\ status (mk (register_bank [0xFFFF]) 247) []
     = (Raise ValueError, [ReadHoldingRegisters 0x009E 1 255])
  /\ status (mk (register_bank [8]) 247) []
     = (Raise ValueError, [ReadHoldingRegisters 0x009E 1 255]).
Proof.
  split; [|split].
  - apply (status_decodes_three_codes (mk (register_bank [1]) 247) [] 1);
      [lia | reflexivity].
  - apply (status_decodes_three_codes (mk (register_bank [0xFFFF]) 247) []
             0xFFFF); [lia | reflexivity].
  - apply (status_decodes_three_codes (mk (register_bank [8]) 247) [] 8);
      [lia | reflexivity].
Defined.

(** ** Product types *)

Lemma product_type_found (p : ProductType.t) :
  filter (fun q => value_eqb (Some (fst (ProductType.value q)))
                             (Some (fst (ProductType.value p))))
         ProductType.members
  = [p].
Proof. destruct p; reflexivity. Qed.

Lemma product_code_range (p : ProductType.t) :
  41 <= fst (ProductType.value p) <= 171.
Proof. destruct p; cbn; lia. Qed.

(** X11.  With a tag index in range and a 16-bit register word [w],
    [tag_product_type] returns the product type [p] exactly when [w] is the
    code of [p], and returns no product type exactly when [w] is the code
    of none. *)
Theorem tag_product_type_by_code
    (self : SchneiderModbus.t) (log : list request)
    (power_tag_index w : Z) (p : ProductType.t) :
  unit_in_range power_tag_index = true ->
  0 <= w < 65536 ->
  answers (client self) log 0x7930 1 power_tag_index [w] ->
  (fst (tag_product_type self power_tag_index log) = Ok (Some p)
   <-> w = fst (ProductType.value p))
  /\ (fst (tag_product_type self power_tag_index log) = Ok None
      <-> forall q, w <> fst (ProductType.value q)).
Proof.
  intros Hu Hw Hans. unfold tag_product_type, bind.
  rewrite (read_int_16_value _ _ _ _ Hu w Hw Hans).
  destruct (Z.eqb_spec w 0xFFFF) as [->|Hs].
  - cbn [fst ret]. split; split.
    + discriminate.
    + intros E. pose proof (product_code_range p). lia.
    + intros _ q E. pose proof (product_code_range q). lia.
    + reflexivity.
  - unfold ret. cbn [fst].
    destruct (filter
                (fun q => value_eqb (Some (fst (ProductType.value q))) (Some w))
                ProductType.members) as [|q qs] eqn:F.
    + split; split.
      * discriminate.
      * intros ->. rewrite product_type_found in F. discriminate F.
      * intros _ q' ->. rewrite product_type_found in F. discriminate F.
      * reflexivity.
    + assert (Hq : w = fst (ProductType.value q)).
      { assert (Hin : In q (q :: qs)) by (left; reflexivity).
        rewrite <- F in Hin. apply filter_In in Hin as [_ Hin].
        apply value_eqb_eq in Hin. congruence. }
      subst w. rewrite product_type_found in F. injection F as <-.
      split; split.
      * intros [= <-]. reflexivity.
      * intros E. f_equal. f_equal.
        destruct q, p; cbn in E; (reflexivity || discriminate E).
      * discriminate.
      * intros H. exfalso. exact (H q eq_refl).
Qed.

Lemma tag_product_type_by_code_witness :
  fst (tag_product_type (mk (register_bank [171]) 247) 1 [])
  = Ok (Some ProductType.SMT10020).
Proof.
  apply (proj1 (tag_product_type_by_code (mk (register_bank [171]) 247) [] 1
                  171 ProductType.SMT10020 eq_refl ltac:(lia) eq_refl)).
  reflexivity.
Defined.

(** ** Alarm and validity accessors *)

(** X12.  With a tag index in range and a 16-bit register word [w],
    [tag_get_alarm] raises a [TypeError] when [w] is 0xFFFF and otherwise
    returns the bit field decoded from [w], whose [has_alarm] tells whether
    the low byte of [w] is not zero. *)
Theorem tag_get_alarm_decodes_the_word
    (self : SchneiderModbus.t) (log : list request)
    (power_tag_index w : Z) :
  unit_in_range power_tag_index = true ->
  0 <= w < 65536 ->
  answers (client self) log 0xCE3 1 power_tag_index [w] ->
  tag_get_alarm self power_tag_index log
  = (if w =? 0xFFFF then Raise TypeError
     else AlarmStatus.__init__ (Some w),
     log ++ [ReadHoldingRegisters 0xCE3 1 power_tag_index])
  /\ (w <> 0xFFFF ->
      exists a,
        fst (tag_get_alarm self power_tag_index log) = Ok a
        /\ AlarmStatus.has_alarm a = negb (w mod 256 =? 0)).
Proof.
  intros Hu Hw Hans.
  assert (E : tag_get_alarm self power_tag_index log
              = (if w =? 0xFFFF then Raise TypeError
                 else AlarmStatus.__init__ (Some w),
                 log ++ [ReadHoldingRegisters 0xCE3 1 power_tag_index])).
  { unfold tag_get_alarm, bind.
    rewrite (read_int_16_value _ _ _ _ Hu w Hw Hans).
    destruct (w =? 0xFFFF); reflexivity. }
  split; [exact E|].
  intros Hs. rewrite E.
  destruct (Z.eqb_spec w 0xFFFF) as [|_]; [contradiction|].
  eexists. split; [reflexivity|].
  cbn [AlarmStatus.has_alarm]. unfold AlarmStatus.nonzero.
  change 0xFF with (Z.ones 8). rewrite Z.land_ones by lia. reflexivity.
Qed.

Lemma tag_get_alarm_decodes_the_word_witness :
  fst (tag_get_alarm (mk (register_bank [0xFFFF]) 247) 1 []) = Raise TypeError
  /\ exists a,
       fst (tag_get_alarm (mk (register_bank [0x0100]) 247) 1 []) = Ok a
       /\ AlarmStatus.has_alarm a = false.
Proof.
  split.
  - rewrite (proj1 (tag_get_alarm_decodes_the_word
                      (mk (register_bank [0xFFFF]) 247) [] 1 0xFFFF
                      eq_refl ltac:(lia) eq_refl)).
    reflexivity.
  - apply (proj2 (tag_get_alarm_decodes_the_word
                    (mk (register_bank [0x0100]) 247) [] 1 0x0100
                    eq_refl ltac:(lia) eq_refl)).
    lia.
Defined.

(** X13.  Whatever the client answers, a bit field returned by
    [tag_get_alarm] has its three HeatTag flags clear. *)
Theorem tag_get_alarm_never_reports_heattag
    (self : SchneiderModbus.t) (log : list request) (power_tag_index : Z)
    (a : AlarmStatus.t) :
  fst (tag_get_alarm self power_tag_index log) = Ok a ->
  AlarmStatus.alarm_heattag_alarm a = false
  /\ AlarmStatus.alarm_heattag_maintenance a = false
  /\ AlarmStatus.alarm_heattag_replacement a = false.
Proof.
  unfold tag_get_alarm, bind.
  destruct (__read_int_16 (client self) 0xCE3 power_tag_index log)
    as [[[v|]|e] log']; cbn [fst lift]; try discriminate.
  destruct (AlarmStatus_heattag_flags_masked v) as (a' & -> & H).
  intros [= <-]. exact H.
Qed.

Lemma tag_get_alarm_never_reports_heattag_witness :
  exists a,
    fst (tag_get_alarm (mk (register_bank [0x0D00]) 247) 1 []) = Ok a
    /\ AlarmStatus.alarm_heattag_alarm a = false
    /\ AlarmStatus.alarm_heattag_maintenance a = false
    /\ AlarmStatus.alarm_heattag_replacement a = false.
Proof.
  eexists. split; [reflexivity|].
  apply (tag_get_alarm_never_reports_heattag
           (mk (register_bank [0x0D00]) 247) [] 1).
  reflexivity.
Defined.

(** X14.  With a tag index in range and a register word [w] below 0xFFFF,
    [tag_is_alarm_valid] returns whether [w] is odd: its lowest bit, the
    other bits being ignored. *)
Theorem tag_is_alarm_valid_is_lowest_bit
    (self : SchneiderModbus.t) (log : list request)
    (power_tag_index w : Z) :
  unit_in_range power_tag_index = true ->
  0 <= w < 0xFFFF ->
  answers (client self) log 0xCE1 1 power_tag_index [w] ->
  tag_is_alarm_valid self power_tag_index log
  = (Ok (Z.odd w), log ++ [ReadHoldingRegisters 0xCE1 1 power_tag_index]).
Proof.
  intros Hu Hw Hans. unfold tag_is_alarm_valid, bind.
  rewrite (read_int_16_value _ _ _ _ Hu w ltac:(lia) Hans).
  destruct (Z.eqb_spec w 0xFFFF) as [->|_]; [lia|].
  cbn [fst lift Py.and_ rbind]. f_equal. f_equal.
  change 1 with (Z.ones 1). rewrite Z.land_ones by lia.
  change (2 ^ 1) with 2. rewrite Zmod_odd.
  destruct (Z.odd w); reflexivity.
Qed.

Lemma tag_is_alarm_valid_is_lowest_bit_witness :
  tag_is_alarm_valid (mk (register_bank [0xFFFE]) 247) 1 []
  = (Ok false, [ReadHoldingRegisters 0xCE1 1 1]).
Proof.
  apply (tag_is_alarm_valid_is_lowest_bit
           (mk (register_bank [0xFFFE]) 247) [] 1 0xFFFE);
    [reflexivity | lia | reflexivity].
Defined.

(** X15.  With a tag index in range and a 16-bit register word [w],
    [tag_radio_communication_valid] and [tag_wireless_communication_valid]
    return false when [w] is 0 and true otherwise, also when [w] is the
    reserved pattern 0xFFFF. *)
Theorem communication_valid_unless_zero
    (self : SchneiderModbus.t) (log : list request)
    (power_tag_index w : Z) :
  unit_in_range power_tag_index = true ->
  0 <= w < 65536 ->
  (answers (client self) log 0x79A8 1 power_tag_index [w] ->
   tag_radio_communication_valid self power_tag_index log
   = (Ok (negb (w =? 0)),
      log ++ [ReadHoldingRegisters 0x79A8 1 power_tag_index]))
  /\ (answers (client self) log 0x79A9 1 power_tag_index [w] ->
      tag_wireless_communication_valid self power_tag_index log
      = (Ok (negb (w =? 0)),
         log ++ [ReadHoldingRegisters 0x79A9 1 power_tag_index])).
Proof.
  intros Hu Hw.
  split; intros Hans;
    unfold tag_radio_communication_valid, tag_wireless_communication_valid,
      bind;
    rewrite (read_int_16_value _ _ _ _ Hu w Hw Hans);
    (destruct (Z.eqb_spec w 0xFFFF) as [->|_]; reflexivity).
Qed.

Lemma communication_valid_unless_zero_witness :
  tag_radio_communication_valid (mk (register_bank [0xFFFF]) 247) 1 []
  = (Ok true, [ReadHoldingRegisters 0x79A8 1 1])
  /\ tag_wireless_communication_valid (mk (register_bank [0]) 247) 1 []
     = (Ok false, [ReadHoldingRegisters 0x79A9 1 1]).
Proof.
  split.
  - apply (proj1 (communication_valid_unless_zero
                    (mk (register_bank [0xFFFF]) 247) [] 1 0xFFFF
                    eq_refl ltac:(lia))).
    reflexivity.
  - apply (proj2 (communication_valid_unless_zero
                    (mk (register_bank [0]) 247) [] 1 0
                    eq_refl ltac:(lia))).
    reflexivity.
Defined.

(** ** Packed date-time, continued *)

Lemma within_true (lo hi b : Z) : within lo hi b = true <-> lo <= b <= hi.
Proof. unfold within. rewrite andb_true_iff, !Z.leb_le. tauto. Qed.





(** X17.  The fields of a date-time that the read returns, in arithmetic:
    the year is 2000 plus the low seven bits of the first word and lies in
    2000..2127, month and day are the bits 8..11 and 0..4 of the second
    word, hour and minute the bits 8..12 and 0..5 of the third, and the
    fourth word gives the second as its quotient by 1000 and the
    microsecond as its remainder. *)
Theorem read_date_time_result_in_range
    (c : ModbusTcpClient) (log : list request) (address unit : Z)
    (year_raw day_month minute_hour second_millisecond : Z) (t : datetime) :
  0 <= year_raw < 65536 -> 0 <= day_month < 65536 ->
  0 <= minute_hour < 65536 -> 0 <= second_millisecond < 65536 ->
  answers c log address 4 unit
    [year_raw; day_month; minute_hour; second_millisecond] ->
  fst (__read_date_time c address unit log) = Ok (Some t) ->
  year t = 2000 + year_raw mod 128
  /\ month t = (day_month / 256) mod 16
  /\ day t = day_month mod 32
  /\ hour t = (minute_hour / 256) mod 32
  /\ minute t = minute_hour mod 64
  /\ second t = second_millisecond / 1000
  /\ microsecond t = second_millisecond mod 1000
  /\ 2000 <= year t <= 2127.
Proof.
  intros H0 H1 H2 H3 Hans Ht.
  destruct (read_date_time_fields c log address unit year_raw day_month
              minute_hour second_millisecond H0 H1 H2 H3 Hans t Ht)
    as (Ey & Em & Ed & Eh & Emi & Es & Eus).
  rewrite Ey, Em, Ed, Eh, Emi, Es, Eus.
  rewrite !Z.shiftr_div_pow2 by lia.
  change 0x7F with (Z.ones 7). change 0x0F with (Z.ones 4).
  change 0x1F with (Z.ones 5). change 0x3F with (Z.ones 6).
  rewrite !Z.land_ones by lia.
  change (2 ^ 7) with 128. change (2 ^ 8) with 256. change (2 ^ 4) with 16.
  change (2 ^ 5) with 32. change (2 ^ 6) with 64.
  pose proof (Z.mod_pos_bound year_raw 128).
  repeat split; lia.
Qed.

Lemma read_date_time_result_in_range_witness :
  exists t,
    fst (date_time (mk (register_bank [0xFF98; 0x0C1F; 0x173B; 59999]) 247) [])
    = Ok (Some t)
    /\ year t = 2024 /\ month t = 12 /\ day t = 31
    /\ hour t = 23 /\ minute t = 59 /\ second t = 59
    /\ microsecond t = 999.
Proof.
  eexists. split; [reflexivity|].
  match goal with |- year ?t = _ /\ _ =>
    destruct (read_date_time_result_in_range
                (register_bank [0xFF98; 0x0C1F; 0x173B; 59999]) [] 0x0073 255
                0xFF98 0x0C1F 0x173B 59999 t
                ltac:(lia) ltac:(lia) ltac:(lia) ltac:(lia) eq_refl eq_refl)
      as (Ey & Em & Ed & Eh & Emi & Es & Eus & _)
  end.
  rewrite Ey, Em, Ed, Eh, Emi, Es, Eus. repeat split.
Defined.

(** X18.  For every unit, a date-time read that is answered with fewer
    than four registers raises [struct.error] after its one request. *)
Theorem read_date_time_short_response
    (c : ModbusTcpClient) (log : list request) (address unit : Z)
    (registers : list Z) :
  answers c log address 4 unit registers ->
  (List.length registers < 4)%nat ->
  __read_date_time c address unit log
  = (Raise StructError, log ++ [ReadHoldingRegisters address 4 unit]).
Proof.
  intros Hans Hlen. unfold __read_date_time, bind.
  rewrite (read_answered _ _ _ _ _ _ Hans). unfold lift. f_equal.
  unfold decoder, BinaryPayloadDecoder.fromRegisters.
  destruct (forallb is_u16 registers); [|reflexivity].
  destruct registers as [|w0 [|w1 [|w2 [|w3 rest]]]];
    [| | | |cbn [List.length] in Hlen; lia];
    reflexivity.
Qed.

Lemma read_date_time_short_response_witness :
  date_time (mk (register_bank [24; 0x0105; 0x0A1E]) 247) []
  = (Raise StructError, [ReadHoldingRegisters 0x0073 4 255]).
Proof.
  apply (read_date_time_short_response
           (register_bank [24; 0x0105; 0x0A1E]) [] 0x0073 255
           [24; 0x0105; 0x0A1E]).
  - reflexivity.
  - cbn. lia.
Defined.

(** ** Strings, continued *)

Lemma continuation_true (b : Z) :
  continuation b = true <-> 0x80 <= b <= 0xBF.
Proof. unfold continuation. rewrite andb_true_iff, !Z.leb_le. tauto. Qed.

Lemma rbind_raise {A B} (r : result A) (k : A -> result B) (e : exn) :
  r = Raise e -> rbind r k = Raise e.
Proof. intros ->. reflexivity. Qed.

Lemma decode_never_utf8 (n : nat) :
  forall bs : list Z,
    (List.length bs <= n)%nat ->
    Exists never_utf8 bs ->
    Py.decode bs = Raise UnicodeDecodeError.
Proof.
  induction n as [|n IH]; intros bs Hlen Hex.
  - destruct bs; [inversion Hex | cbn [List.length] in Hlen; lia].
  - destruct bs as [|b0 r0]; [inversion Hex|].
    cbn [List.length] in Hlen. cbn [Py.decode].
    assert (tail : forall b, ~ never_utf8 b ->
                   forall r, Exists never_utf8 (b :: r) -> Exists never_utf8 r).
    { intros b Hb r H. inversion H; [contradiction | assumption]. }
    destruct (Z.ltb_spec b0 0x80) as [H0|H0].
    { apply rbind_raise, IH; [lia|].
      apply (tail b0); [unfold never_utf8; lia | exact Hex]. }
    destruct (within 0xC2 0xDF b0) eqn:W2.
    { apply within_true in W2.
      apply (tail b0) in Hex; [|unfold never_utf8; lia].
      destruct r0 as [|b1 r1]; [reflexivity|].
      destruct (continuation b1) eqn:C1; [|reflexivity].
      apply continuation_true in C1. cbn [List.length] in Hlen.
      apply rbind_raise, IH; [lia|].
      apply (tail b1); [unfold never_utf8; lia | exact Hex]. }
    destruct (within 0xE0 0xEF b0) eqn:W3.
    { apply within_true in W3.
      apply (tail b0) in Hex; [|unfold never_utf8; lia].
      destruct r0 as [|b1 [|b2 r2]]; [reflexivity|reflexivity|].
      match goal with |- (if ?b then _ else _) = _ => destruct b eqn:C end;
        [|reflexivity].
      apply andb_true_iff in C as [C1 C2].
      apply within_true in C1. apply continuation_true in C2.
      assert (b1 <= 0xBF)
        by (destruct (b0 =? 0xED); destruct (b0 =? 0xE0); lia).
      cbn [List.length] in Hlen.
      apply rbind_raise, IH; [lia|].
      apply (tail b2); [unfold never_utf8; lia|].
      apply (tail b1); [unfold never_utf8; lia | exact Hex]. }
    destruct (within 0xF0 0xF4 b0) eqn:W4; [|reflexivity].
    apply within_true in W4.
    apply (tail b0) in Hex; [|unfold never_utf8; lia].
    destruct r0 as [|b1 [|b2 [|b3 r3]]]; [reflexivity|reflexivity|reflexivity|].
    match goal with |- (if ?b then _ else _) = _ => destruct b eqn:C end;
      [|reflexivity].
    apply andb_true_iff in C as [C C3]. apply andb_true_iff in C as [C1 C2].
    apply within_true in C1. apply continuation_true in C2, C3.
    assert (b1 <= 0xBF)
      by (destruct (b0 =? 0xF4); destruct (b0 =? 0xF0); lia).
    cbn [List.length] in Hlen.
    apply rbind_raise, IH; [lia|].
    apply (tail b3); [unfold never_utf8; lia|].
    apply (tail b2); [unfold never_utf8; lia|].
    apply (tail b1); [unfold never_utf8; lia | exact Hex].
Qed.

(** X19.  When one of the bytes kept by a string read is 0xC0, 0xC1 or
    above 0xF4, which no UTF-8 text contains, the read raises
    [UnicodeDecodeError]: so do registers that are all 0xFFFF. *)
Theorem read_string_undecodable_byte
    (c : ModbusTcpClient) (log : list request)
    (address count unit string_length : Z) (registers : list Z) :
  answers c log address count unit registers ->
  forallb is_u16 registers = true ->
  Exists never_utf8
    (firstn (Z.to_nat string_length) (flat_map pack_H registers)) ->
  __read_string c address count unit string_length log
  = (Raise UnicodeDecodeError,
     log ++ [ReadHoldingRegisters address count unit]).
Proof.
  intros Hans Hregs Hex.
  rewrite (read_string_value _ _ _ _ _ _ _ Hans Hregs). f_equal.
  destruct (firstn (Z.to_nat string_length) (flat_map pack_H registers))
    as [|b bs] eqn:E; [inversion Hex|].
  apply rbind_raise.
  apply (decode_never_utf8
           (List.length (filter (fun b => negb (b =? 0)) (b :: bs))));
    [lia|].
  apply Exists_exists in Hex as (x & Hin & Hx).
  apply Exists_exists. exists x. split; [|exact Hx].
  apply filter_In. split; [exact Hin|].
  apply negb_true_iff, Z.eqb_neq. unfold never_utf8 in Hx. lia.
Qed.

Lemma read_string_undecodable_byte_witness :
  tag_circuit (mk (register_bank [0xFFFF; 0xFFFF; 0xFFFF]) 247) 1 []
  = (Raise UnicodeDecodeError, [ReadHoldingRegisters 0x7922 3 1]).
Proof.
  apply (read_string_undecodable_byte
           (register_bank [0xFFFF; 0xFFFF; 0xFFFF]) [] 0x7922 3 1 5
           [0xFFFF; 0xFFFF; 0xFFFF]).
  - reflexivity.
  - reflexivity.
  - apply Exists_cons_hd. unfold never_utf8. cbn. lia.
Defined.

(** X20.  A string read of at least one byte that is answered with at
    least one register never returns [None]. *)
Theorem read_string_never_absent
    (c : ModbusTcpClient) (log : list request)
    (address count unit string_length : Z) (registers : list Z) :
  answers c log address count unit registers ->
  registers <> [] ->
  1 <= string_length ->
  fst (__read_string c address count unit string_length log) <> Ok None.
Proof.
  intros Hans Hne Hlen Hnone.
  destruct (forallb is_u16 registers) eqn:Hregs.
  - apply (read_string_absent_only_if_empty _ _ _ _ _ _ _ Hans Hregs) in Hnone.
    destruct registers as [|w ws]; [contradiction|].
    cbn [flat_map pack_H app] in Hnone.
    destruct (Z.to_nat string_length) eqn:E; [lia|].
    discriminate Hnone.
  - revert Hnone. unfold __read_string, bind.
    rewrite (read_answered _ _ _ _ _ _ Hans).
    unfold lift, decoder, BinaryPayloadDecoder.fromRegisters.
    rewrite Hregs. discriminate.
Qed.

Lemma read_string_never_absent_witness :
  fst (tag_name (mk (register_bank [0; 0; 0; 0; 0; 0; 0; 0; 0; 0]) 247) 1 [])
  <> Ok None.
Proof.
  apply (read_string_never_absent
           (register_bank [0; 0; 0; 0; 0; 0; 0; 0; 0; 0]) [] 0x7918 10 1 20
           [0; 0; 0; 0; 0; 0; 0; 0; 0; 0]).
  - reflexivity.
  - discriminate.
  - lia.
Defined.

(** X21.  When the bytes kept by a string read are ASCII, the read returns
    them without the zero bytes, wherever these stand, after its one
    request. *)
Theorem read_string_drops_zero_bytes
    (c : ModbusTcpClient) (log : list request)
    (address count unit string_length : Z) (registers : list Z) :
  answers c log address count unit registers ->
  forallb is_u16 registers = true ->
  let ascii_bytes :=
    firstn (Z.to_nat string_length) (flat_map pack_H registers) in
  ascii_bytes <> [] ->
  Forall (fun b => 0 <= b < 0x80) ascii_bytes ->
  __read_string c address count unit string_length log
  = (Ok (Some (filter (fun b => negb (b =? 0)) ascii_bytes)),
     log ++ [ReadHoldingRegisters address count unit]).
Proof.
  intros Hans Hregs ascii_bytes Hne Hascii.
  rewrite (read_string_value _ _ _ _ _ _ _ Hans Hregs). f_equal.
  fold ascii_bytes. destruct ascii_bytes as [|b bs]; [contradiction|].
  rewrite decode_ascii; [reflexivity|].
  apply Forall_forall. intros x Hx. apply filter_In in Hx as [Hx _].
  revert x Hx. apply Forall_forall. exact Hascii.
Qed.

Lemma read_string_drops_zero_bytes_witness :
  hardware_version (mk (register_bank [0x0031; 0x2E00; 0x0032; 0; 0; 0]) 247) []
  = (Ok (Some (str_of_string "1.2")), [ReadHoldingRegisters 0x0050 6 255]).
Proof.
  apply (read_string_drops_zero_bytes
           (register_bank [0x0031; 0x2E00; 0x0032; 0; 0; 0]) [] 0x0050 6 255 11
           [0x0031; 0x2E00; 0x0032; 0; 0; 0]).
  - reflexivity.
  - reflexivity.
  - discriminate.
  - apply Forall_forall. intros x Hx. vm_compute in Hx.
    repeat (destruct Hx as [<-|Hx]; [lia|]). contradiction.
Defined.



(** ** Discovery, whatever the client *)

Lemma read_int_16_logs (c : ModbusTcpClient) (log : list request)
    (address unit : Z) :
  unit_in_range unit = true ->
  snd (__read_int_16 c address unit log)
  = log ++ [ReadHoldingRegisters address 1 unit].
Proof.
  intros Hu. unfold __read_int_16. rewrite assert_holds by exact Hu.
  apply bind_read_logs.
Qed.

(** One turn of the loop: the probe of [slave_id] ends the search with
    [slave_id] or with an exception, or hands over to the next unit. *)
Lemma probe_turn (c : ModbusTcpClient) (slave_id : Z) (rest : list Z)
    (log : list request) :
  unit_in_range slave_id = true ->
  let log' := log ++ [probe_request slave_id] in
  probe c (slave_id :: rest) log = (Ok slave_id, log')
  \/ probe c (slave_id :: rest) log = probe c rest log'
  \/ exists e, probe c (slave_id :: rest) log = (Raise e, log').
Proof.
  intros Hu log'. cbn [probe]. unfold except_ConnectionError, bind, ret.
  pose proof (read_int_16_logs c log 0x0001 slave_id Hu) as Hlog.
  destruct (__read_int_16 c 0x0001 slave_id log) as [[v|e] l].
  - cbn [snd] in Hlog. subst l. left. reflexivity.
  - cbn [snd] in Hlog. subst l.
    destruct e; try (right; right; eexists; reflexivity).
    right. left. reflexivity.
Qed.

Lemma probe_range (c : ModbusTcpClient) (n : nat) :
  forall (start : Z) (log : list request),
    Z.of_nat n = start - 1 -> start <= 247 ->
    exists stop,
      1 <= stop <= start
      /\ snd (probe c (range_down start 1) log)
         = log ++ map probe_request (range_down start stop)
      /\ forall slave_id,
           fst (probe c (range_down start 1) log) = Ok slave_id ->
           slave_id = stop + 1 /\ stop < start.
Proof.
  induction n as [|n IH]; intros start log Hn Hmax.
  - exists start. rewrite !range_down_nil by lia. cbn [probe map].
    unfold raise. cbn [fst snd]. rewrite app_nil_r.
    split; [lia|]. split; [reflexivity|]. discriminate.
  - rewrite (range_down_cons start 1) by lia.
    destruct (probe_turn c start (range_down (start - 1) 1) log
                (unit_in_range_candidates start ltac:(lia)))
      as [E|[E|[e E]]].
    + rewrite E. exists (start - 1).
      rewrite (range_down_cons start (start - 1)) by lia.
      rewrite range_down_nil by lia. cbn [fst snd map].
      split; [lia|]. split; [reflexivity|].
      intros slave_id [= <-]. lia.
    + rewrite E.
      destruct (IH (start - 1) (log ++ [probe_request start])
                  ltac:(lia) ltac:(lia)) as (stop & Hstop & Hlog & Hok).
      exists stop. split; [lia|]. split.
      * rewrite Hlog, (range_down_cons start stop) by lia.
        cbn [map]. rewrite <- app_assoc. reflexivity.
      * intros slave_id H. destruct (Hok slave_id H). lia.
    + rewrite E. exists (start - 1).
      rewrite (range_down_cons start (start - 1)) by lia.
      rewrite range_down_nil by lia. cbn [fst snd map].
      split; [lia|]. split; [reflexivity|]. discriminate.
Qed.

Lemma find_outcome (c : ModbusTcpClient) (log : list request) :
  (List.length (snd (find_synthentic_table_slave_id c log))
   <= List.length log + 246)%nat
  /\ forall slave_id,
       fst (find_synthentic_table_slave_id c log) = Ok slave_id ->
       2 <= slave_id <= 247
       /\ snd (find_synthentic_table_slave_id c log)
          = log ++ map probe_request (range_down 247 (slave_id - 1)).
Proof.
  unfold find_synthentic_table_slave_id, SYNTHESIS_TABLE_SLAVE_ID_START.
  destruct (probe_range c 246 247 log ltac:(lia) ltac:(lia))
    as (stop & Hstop & Hlog & Hok).
  split.
  - rewrite Hlog, length_app, length_map, range_down_length. lia.
  - intros slave_id H. destruct (Hok slave_id H) as [-> Hlt].
    split; [lia|]. rewrite Hlog. do 3 f_equal. lia.
Qed.



(** X24.  When the units above [slave_id] answer their probe with an
    exception response and [slave_id] answers it with no register, the
    discovery raises [struct.error] after the probe of [slave_id] and does
    not go on to the units below. *)
Theorem find_synthentic_table_slave_id_stops_on_empty_reply
    (c : ModbusTcpClient) (log : list request) (slave_id : Z) :
  2 <= slave_id <= 247 ->
  (forall u, slave_id < u <= 247 -> refuses c u) ->
  (forall log', read_holding_registers c log' 0x0001 1 slave_id
                = RegistersResponse []) ->
  find_synthentic_table_slave_id c log
  = (Raise StructError,
     log ++ map probe_request (range_down 247 (slave_id - 1))).
Proof.
  intros Hk Href Hempty.
  unfold find_synthentic_table_slave_id, SYNTHESIS_TABLE_SLAVE_ID_START.
  rewrite (probe_skips_refused c (Z.to_nat (247 - slave_id)) 247 slave_id)
    by (lia || exact Href).
  rewrite (range_down_cons slave_id 1) by lia.
  cbn [probe]. unfold except_ConnectionError, bind, ret.
  rewrite (read_int_16_short c _ 0x0001 slave_id []
             (unit_in_range_candidates slave_id ltac:(lia))
             (Hempty _) ltac:(cbn; lia)).
  f_equal. rewrite (range_down_snoc 247 slave_id) by lia.
  rewrite map_app, <- app_assoc. reflexivity.
Qed.

Lemma find_synthentic_table_slave_id_stops_on_empty_reply_witness :
  find_synthentic_table_slave_id empty_reply_on_unit_42 []
  = (Raise StructError, map probe_request (range_down 247 41)).
Proof.
  apply (find_synthentic_table_slave_id_stops_on_empty_reply
           empty_reply_on_unit_42 [] 42).
  - lia.
  - intros u Hu log. eexists. cbn.
    destruct (Z.eqb_spec u 42) as [E|_]; [lia|reflexivity].
  - intros log'. reflexivity.
Defined.

(** ** The constructor *)

(** X25.  An object returned by the constructor keeps the client it was
    given and a synthesis-table unit in 2..247, found by the probes of 247
    down to that unit; [product_id] and [modbus_address_of_node] then issue
    one request of one register to that unit, at 0x0001 and at
    [0x012C + node_index - 1]. *)
Theorem init_unit_is_a_candidate
    (c : ModbusTcpClient) (log : list request) (self : SchneiderModbus.t) :
  fst (__init__ c log) = Ok self ->
  client self = c
  /\ 2 <= synthetic_slave_id self <= 247
  /\ snd (__init__ c log)
     = log ++ map probe_request
                (range_down 247 (synthetic_slave_id self - 1))
  /\ forall log' node_index,
       snd (product_id self log')
       = log' ++ [ReadHoldingRegisters 0x0001 1 (synthetic_slave_id self)]
       /\ snd (modbus_address_of_node self node_index log')
          = log' ++ [ReadHoldingRegisters (0x012C + node_index - 1) 1
                       (synthetic_slave_id self)].
Proof.
  unfold __init__, bind, ret.
  destruct (find_outcome c log) as [_ Hok].
  destruct (find_synthentic_table_slave_id c log) as [[k|e] l];
    cbn [fst snd] in *; [|discriminate].
  intros [= <-]. cbn [client synthetic_slave_id].
  destruct (Hok k eq_refl) as [Hk Hl].
  split; [reflexivity|]. split; [exact Hk|]. split; [exact Hl|].
  intros log' node_index. unfold product_id, modbus_address_of_node.
  cbn [client synthetic_slave_id].
  split; apply read_int_16_logs, unit_in_range_candidates; lia.
Qed.

Lemma init_unit_is_a_candidate_witness :
  exists self,
    fst (__init__ table_on_unit_42 []) = Ok self
    /\ client self = table_on_unit_42
    /\ 2 <= synthetic_slave_id self <= 247.
Proof.
  eexists. split; [reflexivity|].
  match goal with |- client ?s = _ /\ _ =>
    destruct (init_unit_is_a_candidate table_on_unit_42 [] s eq_refl)
      as (Hc & Hk & _)
  end.
  split; [exact Hc | exact Hk].
Defined.

(** ** Per-phase and per-line registers *)

(** X26.  With a tag index in range, [tag_current] for two different phases
    and [tag_voltage] for two different line voltages read two registers
    each, and the two register pairs do not overlap. *)
Theorem phase_and_line_reads_are_disjoint
    (self : SchneiderModbus.t) (log : list request) (power_tag_index : Z) :
  unit_in_range power_tag_index = true ->
  (forall p q : Phase.t,
      p <> q ->
      exists a b,
        snd (tag_current self power_tag_index p log)
        = log ++ [ReadHoldingRegisters a 2 power_tag_index]
        /\ snd (tag_current self power_tag_index q log)
           = log ++ [ReadHoldingRegisters b 2 power_tag_index]
        /\ (a + 2 <= b \/ b + 2 <= a))
  /\ (forall l m : LineVoltage.t,
        l <> m ->
        exists a b,
          snd (tag_voltage self power_tag_index l log)
          = log ++ [ReadHoldingRegisters a 2 power_tag_index]
          /\ snd (tag_voltage self power_tag_index m log)
             = log ++ [ReadHoldingRegisters b 2 power_tag_index]
          /\ (a + 2 <= b \/ b + 2 <= a)).
Proof.
  intros Hu. split.
  - intros p q Hpq. unfold tag_current.
    rewrite !read_float_32_logs by exact Hu. do 2 eexists.
    split; [reflexivity|]. split; [reflexivity|].
    destruct p, q; cbn [Phase.value]; try lia; contradiction.
  - intros l m Hlm. unfold tag_voltage.
    rewrite !read_float_32_logs by exact Hu. do 2 eexists.
    split; [reflexivity|]. split; [reflexivity|].
    destruct l, m; cbn [LineVoltage.value]; try lia; contradiction.
Qed.

Lemma phase_and_line_reads_are_disjoint_witness :
  exists a b,
    snd (tag_current (mk silent_gateway 247) 1 Phase.A [])
    = [] ++ [ReadHoldingRegisters a 2 1]
    /\ snd (tag_current (mk silent_gateway 247) 1 Phase.B [])
       = [] ++ [ReadHoldingRegisters b 2 1]
    /\ (a + 2 <= b \/ b + 2 <= a).
Proof.
  apply (proj1 (phase_and_line_reads_are_disjoint
                  (mk silent_gateway 247) [] 1 eq_refl) Phase.A Phase.B).
  discriminate.
Defined.

